(** * Trading simulator: securities, trades and market metrics

    A shallow embedding of [Trading_sim.py]: the [Stock] and [Trade]
    constructors, [calc_div_yield], [calc_volume_weighted_price] and [gbce],
    followed by the properties of the calculation engine.

    Python values are modelled by the type [value] (None, int, float, str).
    Integers are unbounded ([Z]); floats are IEEE 754 binary64 numbers (Rocq's
    primitive [float]), so that the arithmetic of the program, rounding and
    conversion failures included, is the arithmetic of the model.  Exceptions
    are values of [exn]; a computation returns [Ok v] or [Raise e].  The
    system clock read by [datetime.now(UTC)] is part of the state [World]
    that the stateful functions thread. *)

From Stdlib Require Import ZArith List String Ascii Bool Lia Floats.
Import ListNotations.

Open Scope string_scope.
Open Scope Z_scope.

(** ** Exceptions and results *)

(** The exception classes the program can raise.  [ValueError] carries its
    message, which [gbce] inspects; [NameError] carries the unbound name. *)
Inductive exn : Type :=
| ValueError (msg : string)
| TypeError
| NameError (name : string)
| OverflowError
| ZeroDivisionError
| KeyError (key : string).

Inductive result (A : Type) : Type :=
| Ok (a : A)
| Raise (e : exn).

Arguments Ok {A} a.
Arguments Raise {A} e.

Definition rbind {A B : Type} (r : result A) (k : A -> result B) : result B :=
  match r with
  | Ok a => k a
  | Raise e => Raise e
  end.

Declare Scope py_scope.
Delimit Scope py_scope with py.
Notation "x <- c ;; k" := (rbind c (fun x => k))
  (at level 61, c at next level, right associativity) : py_scope.
Open Scope py_scope.

(** ** Values *)

Inductive value : Type :=
| VNone
| VInt (z : Z)
| VFloat (f : float)
| VStr (s : string).

Definition is_None (v : value) : bool :=
  match v with
  | VNone => true
  | _ => false
  end.

(** *** Strings *)

Definition lower_ascii (c : ascii) : ascii :=
  let n := nat_of_ascii c in
  if (Nat.leb 65 n && Nat.leb n 90)%bool then ascii_of_nat (n + 32) else c.

(** [str.lower()] on the ASCII letters; the keywords the program compares
    with ('common', 'preferred', 'buy', 'sell') are ASCII. *)
Fixpoint lower (s : string) : string :=
  match s with
  | EmptyString => EmptyString
  | String c r => String (lower_ascii c) (lower r)
  end.

(** [s * n] for a string: [n] copies of [s], none when [n <= 0]. *)
Fixpoint repeat_str (s : string) (n : nat) : string :=
  match n with
  | O => EmptyString
  | S k => (s ++ repeat_str s k)%string
  end.

(** *** Numbers *)

(** [float(z)] for an int: the nearest binary64 number, ties to even. *)
Definition float_of_Z (z : Z) : float :=
  SF2Prim (binary_normalize prec emax z 0 false).

(** An int operand of float arithmetic is converted first, and the
    conversion fails when the int is beyond the range of a float. *)
Definition int_to_float (z : Z) : result float :=
  let f := float_of_Z z in
  if PrimFloat.is_infinity f then Raise OverflowError else Ok f.

Definition Z_to_SF (z : Z) : spec_float :=
  match z with
  | Z0 => S754_zero false
  | Zpos p => S754_finite false p 0
  | Zneg p => S754_finite true p 0
  end.

(** [a / b] on two ints: the correctly rounded quotient. *)
Definition int_true_divide (a b : Z) : result float :=
  if b =? 0 then Raise ZeroDivisionError
  else
    let f := SF2Prim (SFdiv prec emax (Z_to_SF a) (Z_to_SF b)) in
    if PrimFloat.is_infinity f then Raise OverflowError else Ok f.

Definition float_true_divide (a b : float) : result float :=
  if PrimFloat.eqb b 0%float then Raise ZeroDivisionError
  else Ok (PrimFloat.div a b).

(** [int(f)] for a float: truncation towards zero. *)
Definition float_to_int (f : float) : result Z :=
  match Prim2SF f with
  | S754_zero _ => Ok 0
  | S754_finite s m e =>
      let a := if 0 <=? e then Z.shiftl (Zpos m) e else Z.shiftr (Zpos m) (- e) in
      Ok (if s then - a else a)
  | S754_infinity _ => Raise OverflowError
  | S754_nan => Raise (ValueError "cannot convert float NaN to integer")
  end.

(** *** Operators *)

(** [a * b] *)
Definition py_mul (a b : value) : result value :=
  match a, b with
  | VInt x, VInt y => Ok (VInt (x * y))
  | VInt x, VFloat g => f <- int_to_float x ;; Ok (VFloat (PrimFloat.mul f g))
  | VFloat f, VInt y => g <- int_to_float y ;; Ok (VFloat (PrimFloat.mul f g))
  | VFloat f, VFloat g => Ok (VFloat (PrimFloat.mul f g))
  | VStr s, VInt n => Ok (VStr (repeat_str s (Z.to_nat n)))
  | VInt n, VStr s => Ok (VStr (repeat_str s (Z.to_nat n)))
  | _, _ => Raise TypeError
  end.

(** [a + b] *)
Definition py_add (a b : value) : result value :=
  match a, b with
  | VInt x, VInt y => Ok (VInt (x + y))
  | VInt x, VFloat g => f <- int_to_float x ;; Ok (VFloat (PrimFloat.add f g))
  | VFloat f, VInt y => g <- int_to_float y ;; Ok (VFloat (PrimFloat.add f g))
  | VFloat f, VFloat g => Ok (VFloat (PrimFloat.add f g))
  | VStr s, VStr t => Ok (VStr (s ++ t)%string)
  | _, _ => Raise TypeError
  end.

(** [a / b] *)
Definition py_truediv (a b : value) : result value :=
  match a, b with
  | VInt x, VInt y => q <- int_true_divide x y ;; Ok (VFloat q)
  | VInt x, VFloat g =>
      f <- int_to_float x ;; q <- float_true_divide f g ;; Ok (VFloat q)
  | VFloat f, VInt y =>
      g <- int_to_float y ;; q <- float_true_divide f g ;; Ok (VFloat q)
  | VFloat f, VFloat g => q <- float_true_divide f g ;; Ok (VFloat q)
  | _, _ => Raise TypeError
  end.

(** [v <= 0], the comparison of a value with the int literal 0. *)
Definition py_le_zero (v : value) : result bool :=
  match v with
  | VInt z => Ok (z <=? 0)
  | VFloat f => Ok (PrimFloat.leb f 0%float)
  | _ => Raise TypeError
  end.

(** ** The system clock *)

(** Instants are counted in microseconds, the resolution of [datetime].  The
    world holds the successive readings of the UTC clock and the number of
    readings taken so far; [datetime.now(UTC)] returns the next one. *)
Record World : Type := mkWorld {
  readings : nat -> Z;
  cursor : nat
}.

(** The instant the next call of [datetime.now(UTC)] returns. *)
Definition current_instant (w : World) : Z := readings w (cursor w).

(** The world after [n] readings of the clock. *)
Definition advance (n : nat) (w : World) : World :=
  mkWorld (readings w) (n + cursor w).

(** Computations that read the clock and may raise. *)
Definition M (A : Type) : Type := World -> result A * World.

Definition ret {A : Type} (a : A) : M A := fun w => (Ok a, w).

Definition raise {A : Type} (e : exn) : M A := fun w => (Raise e, w).

Definition lift {A : Type} (r : result A) : M A := fun w => (r, w).

Definition bind {A B : Type} (c : M A) (k : A -> M B) : M B :=
  fun w =>
    match c w with
    | (Ok a, w') => k a w'
    | (Raise e, w') => (Raise e, w')
    end.

Notation "x <~ c ;; k" := (bind c (fun x => k))
  (at level 61, c at next level, right associativity) : py_scope.

Definition datetime_now : M Z :=
  fun w => (Ok (current_instant w), advance 1 w).

(** [timedelta(minutes=n)] in microseconds. *)
Definition timedelta_minutes (n : Z) : Z := n * 60 * 1000000.

(** ** Securities and trades *)

Module Stock.
Record t : Type := mk {
  symbol : string;
  typ : string;
  last_div : Z;
  fixed_div : value;
  par_value : Z
}.
End Stock.

Module Trade.
Record t : Type := mk {
  instant : Z;
  stock : Stock.t;
  is_buy : bool;
  qty : Z;
  price : float
}.
End Trade.

(** The registry: a dict from symbol to security, in insertion order. *)
Definition registry : Type := list (string * Stock.t).

Definition dict_keys (d : registry) : list string := map fst d.

(** [d[key]] *)
Fixpoint dict_get (d : registry) (key : string) : result Stock.t :=
  match d with
  | [] => Raise (KeyError key)
  | (k, v) :: rest => if (k =? key)%string then Ok v else dict_get rest key
  end.

(** Error messages of the program. *)
Definition stock_mandatory_msg : string :=
  "Mandatory fields (symbol, type, last_div, par_value) cannot be None!".
Definition stock_fixed_div_msg : string :=
  "fixed_div cannot be None for preferred stock!".
Definition trade_mandatory_msg : string :=
  "Mandatory fields (stock, indicator, qty, price) cannot be None!".
Definition trade_positive_msg : string :=
  "Price and quantity must be greater than 0".
Definition trade_indicator_msg (indicator : string) : string :=
  ("Invalid buy/sell indicator " ++ indicator)%string.
Definition no_activity_prefix : string :=
  "Couldn't find any trading activity".
Definition no_activity_msg (symbol : string) : string :=
  ("Couldn't find any trading activity for " ++ symbol ++ "!")%string.
Definition no_activity_any_msg : string :=
  "Couldn't find any trading activity for any stock!".

Section Engine.

(** The interpreter's parsers of numeric literals, [int(s)] and [float(s)]
    on a string, which answer [None] where Python raises [ValueError]; and
    [statistics.geometric_mean]. *)
Variable int_of_str : string -> option Z.
Variable float_of_str : string -> option float.
Variable geometric_mean : list value -> result value.

(** [int(v)].  The messages of the interpreter's own [ValueError]s are
    given without the literal they quote. *)
Definition py_int (v : value) : result Z :=
  match v with
  | VNone => Raise TypeError
  | VInt z => Ok z
  | VFloat f => float_to_int f
  | VStr s =>
      match int_of_str s with
      | Some z => Ok z
      | None => Raise (ValueError "invalid literal for int() with base 10")
      end
  end.

(** [float(v)] *)
Definition py_float (v : value) : result float :=
  match v with
  | VNone => Raise TypeError
  | VInt z => int_to_float z
  | VFloat f => Ok f
  | VStr s =>
      match float_of_str s with
      | Some f => Ok f
      | None => Raise (ValueError "could not convert string to float")
      end
  end.

(** [Stock.__init__]; [symbol] and [typ] are strings or None, the numeric
    fields any value.  The membership test
    [None in (symbol, typ, last_div, par_value)] holds when one of the four
    is None. *)
Definition Stock_init (symbol typ : option string)
    (last_div fixed_div par_value : value) : result Stock.t :=
  match symbol, typ with
  | Some symbol, Some typ =>
      if (is_None last_div || is_None par_value)%bool
      then Raise (ValueError stock_mandatory_msg)
      else
        let typ := lower typ in
        fixed_div <-
          (if (typ =? "preferred")%string then
             if is_None fixed_div then Raise (ValueError stock_fixed_div_msg)
             else z <- py_int fixed_div ;; Ok (VInt z)
           else Ok fixed_div) ;;
        last_div <- py_int last_div ;;
        par_value <- py_int par_value ;;
        Ok (Stock.mk symbol typ last_div fixed_div par_value)
  | _, _ => Raise (ValueError stock_mandatory_msg)
  end.

(** [Trade.__init__]; [stock] is a security or None, [indicator] a string
    or None.  After the coercions [qty] is an int and [price] a float, so
    the membership test [None in (stock, indicator, qty, price)] is decided
    by [stock] and [indicator]. *)
Definition Trade_init (stock : option Stock.t) (indicator : option string)
    (qty price : value) : M Trade.t :=
  instant <~ datetime_now ;;
  qty <~ lift (py_int qty) ;;
  price <~ lift (py_float price) ;;
  match stock, indicator with
  | Some stock, Some indicator =>
      if ((qty <=? 0) || PrimFloat.leb price 0%float)%bool
      then raise (ValueError trade_positive_msg)
      else
        let indicator := lower indicator in
        if negb ((indicator =? "buy")%string || (indicator =? "sell")%string)
        then raise (ValueError (trade_indicator_msg indicator))
        else ret (Trade.mk instant stock (indicator =? "buy")%string qty price)
  | _, _ => raise (ValueError trade_mandatory_msg)
  end.

Definition buy (stock : option Stock.t) (qty price : value) : M Trade.t :=
  Trade_init stock (Some "buy") qty price.

Definition sell (stock : option Stock.t) (qty price : value) : M Trade.t :=
  Trade_init stock (Some "sell") qty price.

(** [calc_div_yield]; the name [valueError] of the first branch is bound
    nowhere in the program, so evaluating it raises [NameError]. *)
Definition calc_div_yield (stock : Stock.t) (price : value) : result value :=
  nonpositive <- py_le_zero price ;;
  if nonpositive then Raise (NameError "valueError")
  else if (lower (Stock.typ stock) =? "common")%string then
    py_truediv (VInt (Stock.last_div stock)) price
  else
    dividend <- py_mul (Stock.fixed_div stock) (VInt (Stock.par_value stock)) ;;
    scaled <- py_mul price (VInt 100) ;;
    py_truediv dividend scaled.

(** The loop of [calc_volume_weighted_price]: the running
    [weighted_price] and [volume] over the trades. *)
Fixpoint vwp_loop (cutoff_date : Z) (stock : Stock.t) (trades : list Trade.t)
    (weighted_price : value) (volume : Z) : result (value * Z) :=
  match trades with
  | [] => Ok (weighted_price, volume)
  | trade :: rest =>
      if ((cutoff_date <? Trade.instant trade)
          && (Stock.symbol (Trade.stock trade) =? Stock.symbol stock)%string)%bool
      then
        amount <- py_mul (VFloat (Trade.price trade)) (VInt (Trade.qty trade)) ;;
        weighted_price <- py_add weighted_price amount ;;
        vwp_loop cutoff_date stock rest weighted_price (volume + Trade.qty trade)
      else vwp_loop cutoff_date stock rest weighted_price volume
  end.

Definition calc_volume_weighted_price (stock : Stock.t)
    (trades : list Trade.t) : M value :=
  now <~ datetime_now ;;
  let cutoff_date := now - timedelta_minutes 5 in
  totals <~ lift (vwp_loop cutoff_date stock trades (VInt 0) 0) ;;
  let (weighted_price, volume) := totals in
  if volume =? 0
  then raise (ValueError (no_activity_msg (Stock.symbol stock)))
  else lift (py_truediv weighted_price (VInt volume)).

(** The loop of [gbce] over the keys of the registry.  The handler catches
    [ValueError] only, and raises it again unless its message starts with
    [no_activity_prefix]. *)
Fixpoint gbce_loop (stocks : registry) (keys : list string)
    (trades : list Trade.t) (volume_weighted_prices : list value)
    : M (list value) :=
  match keys with
  | [] => ret volume_weighted_prices
  | symbol :: rest =>
      fun w =>
        match (stock <~ lift (dict_get stocks symbol) ;;
               calc_volume_weighted_price stock trades) w with
        | (Ok p, w') =>
            gbce_loop stocks rest trades (volume_weighted_prices ++ [p]) w'
        | (Raise (ValueError msg), w') =>
            if negb (prefix no_activity_prefix msg)
            then (Raise (ValueError msg), w')
            else gbce_loop stocks rest trades volume_weighted_prices w'
        | (Raise e, w') => (Raise e, w')
        end
  end.

Definition gbce (stocks : registry) (trades : list Trade.t) : M value :=
  volume_weighted_prices <~ gbce_loop stocks (dict_keys stocks) trades [] ;;
  if (List.length volume_weighted_prices =? 0)%nat
  then raise (ValueError no_activity_any_msg)
  else lift (geometric_mean volume_weighted_prices).

End Engine.

(** ** Prices and kinds *)

(** A price is greater than 0: an int or a float above zero (NaN is not). *)
Definition positive (price : value) : Prop :=
  match price with
  | VInt z => 0 < z
  | VFloat f => PrimFloat.ltb 0%float f = true
  | _ => False
  end.

(** A price is less than or equal to 0. *)
Definition nonpositive (price : value) : Prop :=
  match price with
  | VInt z => z <= 0
  | VFloat f => PrimFloat.leb f 0%float = true
  | _ => False
  end.

(** A numeric constructor argument as the catalog supplies it: an int, or
    None where the field is absent. *)
Definition int_or_None (v : value) : Prop :=
  match v with
  | VNone | VInt _ => True
  | _ => False
  end.

(** ** The trailing window, in the words of the specification *)

Definition in_window (now : Z) (security : Stock.t) (trade : Trade.t) : bool :=
  ((now - timedelta_minutes 5 <? Trade.instant trade)
   && (Stock.symbol (Trade.stock trade) =? Stock.symbol security)%string)%bool.

Definition window (now : Z) (security : Stock.t) (trades : list Trade.t)
    : list Trade.t :=
  filter (in_window now security) trades.

(** The sum of [price_i * quantity_i], accumulated from the int 0 in the
    order of the trades. *)
Fixpoint sum_amounts_from (acc : value) (trades : list Trade.t) : result value :=
  match trades with
  | [] => Ok acc
  | trade :: rest =>
      amount <- py_mul (VFloat (Trade.price trade)) (VInt (Trade.qty trade)) ;;
      acc <- py_add acc amount ;;
      sum_amounts_from acc rest
  end.

Definition sum_amounts (trades : list Trade.t) : result value :=
  sum_amounts_from (VInt 0) trades.

Definition sum_quantities (trades : list Trade.t) : Z :=
  fold_right Z.add 0 (map Trade.qty trades).

(** The specification's [volumeWeightedPrice(security, trades, now)]. *)
Definition volumeWeightedPrice (security : Stock.t) (trades : list Trade.t)
    (now : Z) : result value :=
  match window now security trades with
  | [] => Raise (ValueError (no_activity_msg (Stock.symbol security)))
  | selected =>
      total <- sum_amounts selected ;;
      py_truediv total (VInt (sum_quantities selected))
  end.

(** ** Outcomes of the per-security attempts of [gbce] *)

(** The failure that reports no trading activity, for one symbol or for
    the whole registry. *)
Definition NoTradingActivity (symbol : option string) : exn :=
  match symbol with
  | Some s => ValueError (no_activity_msg s)
  | None => ValueError no_activity_any_msg
  end.

(** The outcome for each security of the registry, in order: the [i]-th
    one is computed after [i] earlier readings of the clock. *)
Fixpoint attempts_from (w : World) (trades : list Trade.t) (i : nat)
    (securities : list Stock.t) : list (Stock.t * result value) :=
  match securities with
  | [] => []
  | s :: rest =>
      (s, fst (calc_volume_weighted_price s trades (advance i w)))
        :: attempts_from w trades (S i) rest
  end.

Definition attempts (w : World) (stocks : registry) (trades : list Trade.t)
    : list (Stock.t * result value) :=
  attempts_from w trades 0 (map snd stocks).

(** The prices of the attempts that returned one. *)
Fixpoint collected (outcomes : list (Stock.t * result value)) : list value :=
  match outcomes with
  | [] => []
  | (_, Ok p) :: rest => p :: collected rest
  | (_, Raise _) :: rest => collected rest
  end.

(** The prices gathered from the outcomes after those of [acc], or the
    first failure that is not the report of no trading activity for the
    security it comes from. *)
Fixpoint gather (outcomes : list (Stock.t * result value)) (acc : list value)
    : result (list value) :=
  match outcomes with
  | [] => Ok acc
  | (_, Ok p) :: rest => gather rest (acc ++ [p])
  | (s, Raise e) :: rest =>
      match e with
      | ValueError msg =>
          if (msg =? no_activity_msg (Stock.symbol s))%string
          then gather rest acc
          else Raise e
      | _ => Raise e
      end
  end.

(** An attempt is settled when it returned a price or reported no trading
    activity for its own security. *)
Definition settled (outcome : Stock.t * result value) : Prop :=
  (exists p, snd outcome = Ok p)
  \/ snd outcome = Raise (NoTradingActivity (Some (Stock.symbol (fst outcome)))).

(** ** Reference parsers

    [int(s)] and [float(s)] on plain decimal literals (an optional sign and
    digits), and [statistics.geometric_mean] as it answers where it has no
    positive data; they instantiate the interpreter's part on concrete runs. *)

Definition digit_of_ascii (c : ascii) : option Z :=
  let n := nat_of_ascii c in
  if (Nat.leb 48 n && Nat.leb n 57)%bool then Some (Z.of_nat (n - 48)) else None.

Fixpoint digits_value (s : string) (acc : Z) : option Z :=
  match s with
  | EmptyString => Some acc
  | String c rest =>
      match digit_of_ascii c with
      | Some d => digits_value rest (10 * acc + d)
      | None => None
      end
  end.

Definition unsigned_decimal (s : string) : option Z :=
  match s with
  | EmptyString => None
  | _ => digits_value s 0
  end.

Definition decimal_int_of_str (s : string) : option Z :=
  match s with
  | String "-"%char rest => option_map Z.opp (unsigned_decimal rest)
  | String "+"%char rest => unsigned_decimal rest
  | _ => unsigned_decimal s
  end.

Definition decimal_float_of_str (s : string) : option float :=
  option_map float_of_Z (decimal_int_of_str s).

Definition geometric_mean_no_data (data : list value) : result value :=
  Raise (ValueError "geometric mean requires a non-empty dataset containing positive numbers").

(** ** Conditions on the arguments of [Stock.__init__] *)

(** A mandatory field (symbol, kind, last dividend, par value) is missing. *)
Definition mandatory_missing (symbol typ : option string)
    (last_div par_value : value) : Prop :=
  symbol = None \/ typ = None \/ last_div = VNone \/ par_value = VNone.

(** The kind is 'preferred', in any case of the letters, and the fixed
    dividend percentage is missing. *)
Definition preferred_without_percentage (typ : option string)
    (fixed_div : value) : Prop :=
  exists k, typ = Some k /\ lower k = "preferred" /\ fixed_div = VNone.

(** The kind is a string other than 'common' and 'preferred', in any case
    of the letters. *)
Definition unrecognized_kind (typ : option string) : Prop :=
  exists k, typ = Some k /\ lower k <> "common" /\ lower k <> "preferred".

(** The side indicator of a trade is 'buy' or 'sell', in any case of the
    letters. *)
Definition recognized_side (indicator : option string) : Prop :=
  exists ind, indicator = Some ind /\ (lower ind = "buy" \/ lower ind = "sell").

(** ** Trades built by the constructor *)

(** A trade of the ledger is one that [Trade.__init__] returned. *)
Definition constructed (int_of_str : string -> option Z)
    (float_of_str : string -> option float) (trade : Trade.t) : Prop :=
  exists stock indicator qty price w w',
    Trade_init int_of_str float_of_str stock indicator qty price w = (Ok trade, w').

(** ** The catalog of the program and sample runs *)

Definition TEA : Stock.t := Stock.mk "TEA" "common" 0 VNone 100.
Definition POP : Stock.t := Stock.mk "POP" "common" 8 VNone 100.
Definition ALE : Stock.t := Stock.mk "ALE" "common" 23 VNone 60.
Definition GIN : Stock.t := Stock.mk "GIN" "preferred" 8 (VInt 2) 100.
Definition JOE : Stock.t := Stock.mk "JOE" "common" 13 VNone 250.

Definition catalog : registry :=
  [("TEA", TEA); ("POP", POP); ("ALE", ALE); ("GIN", GIN); ("JOE", JOE)].

(** A clock that starts at [start] and moves one microsecond per reading. *)
Definition ticking_world (start : Z) : World :=
  mkWorld (fun n => start + Z.of_nat n) 0.

(** Noon of some day, in microseconds. *)
Definition noon : Z := 43200 * 1000000.

(** Two purchases of POP, one minute and two minutes before [noon]. *)
Definition pop_trade_1 : Trade.t :=
  Trade.mk (noon - timedelta_minutes 1) POP true 100 10%float.
Definition pop_trade_2 : Trade.t :=
  Trade.mk (noon - timedelta_minutes 2) POP true 50 20%float.

(** The same purchase with a quantity beyond the range of a float. *)
Definition pop_trade_huge : Trade.t :=
  Trade.mk (noon - timedelta_minutes 1) POP true (10 ^ 400) 1%float.

(** A security of a kind that is neither 'common' nor 'preferred'. *)
Definition XYZ : Stock.t := Stock.mk "XYZ" "bogus" 1 VNone 100.

(** A preferred security that bears the symbol of [POP]. *)
Definition POP_preferred : Stock.t := Stock.mk "POP" "preferred" 8 (VInt 2) 100.

(** A clock stopped at [now]. *)
Definition stopped_world (now : Z) : World := mkWorld (fun _ => now) 0.

(** ** The command loop

    One turn of the loop of the program: the words of the line read give
    an action and its arguments, the action runs against the registry and
    the ledger, and the handler reports [ValueError] and [TypeError] and
    lets every other exception end the program.  What is printed is kept
    as the sequence of [print] calls with the object each one renders. *)

(** What a turn can raise: the exceptions of the engine, and [IndexError]
    where [args] is indexed beyond its length. *)
Inductive raised : Type :=
| Engine (e : exn)
| IndexError.

(** The objects that are printed or returned by an action. *)
Inductive obj : Type :=
| OValue (v : value)
| OTrade (trade : Trade.t)
| OStock (stock : Stock.t).

(** The calls of [print]: the result line of an action, a line of
    [pretty_print], a fixed text, the line of [print_help] for an action
    (its name and the docstring of its function), and the exception shown
    by the handler. *)
Inductive printed : Type :=
| PResult (result : obj)
| PItem (item : obj)
| PText (text : string)
| PHelp (action : string)
| PError (e : exn).

Module Session.
Record t : Type := mk {
  trades : list Trade.t;
  world : World;
  output : list printed
}.
End Session.

Inductive attempt (A : Type) : Type :=
| Done (a : A)
| Failed (r : raised).

Arguments Done {A} a.
Arguments Failed {A} r.

(** Computations of a turn: they read and extend the session and may
    raise. *)
Definition L (A : Type) : Type := Session.t -> attempt A * Session.t.

Definition lret {A : Type} (a : A) : L A := fun s => (Done a, s).

Definition lraise {A : Type} (r : raised) : L A := fun s => (Failed r, s).

Definition lbind {A B : Type} (c : L A) (k : A -> L B) : L B :=
  fun s =>
    match c s with
    | (Done a, s') => k a s'
    | (Failed r, s') => (Failed r, s')
    end.

Notation "x <<- c ;; k" := (lbind c (fun x => k))
  (at level 61, c at next level, right associativity) : py_scope.

(** A call into the engine: it runs on the clock of the session. *)
Definition engine {A : Type} (c : M A) : L A :=
  fun s =>
    match c (Session.world s) with
    | (Ok a, w') =>
        (Done a, Session.mk (Session.trades s) w' (Session.output s))
    | (Raise e, w') =>
        (Failed (Engine e), Session.mk (Session.trades s) w' (Session.output s))
    end.

Definition print (p : printed) : L unit :=
  fun s =>
    (Done tt,
     Session.mk (Session.trades s) (Session.world s) (Session.output s ++ [p])).

(** [trades.append(trade)] *)
Definition append_trade (trade : Trade.t) : L unit :=
  fun s =>
    (Done tt,
     Session.mk (Session.trades s ++ [trade]) (Session.world s) (Session.output s)).

Definition the_trades : L (list Trade.t) :=
  fun s => (Done (Session.trades s), s).

(** [args[i]] *)
Definition args_at (args : list string) (i : nat) : L string :=
  match nth_error args i with
  | Some a => lret a
  | None => lraise IndexError
  end.

(** The keys of [actions], in the order of the dict. *)
Definition action_names : list string :=
  ["help"; "dividend_yield"; "p_to_e_ratio"; "buy"; "sell";
   "volume_weighted_price"; "gbce"; "show_trades"; "show_stocks";
   "exit"; "quit"].

Definition invalid_action_msg : string :=
  "Invalid action! choose from: ['help', 'dividend_yield', 'p_to_e_ratio', 'buy', 'sell', 'volume_weighted_price', 'gbce', 'show_trades', 'show_stocks', 'exit', 'quit']".

Definition unpack_msg : string :=
  "not enough values to unpack (expected at least 1, got 0)".

(** [', '.join(parts)] *)
Fixpoint join_comma (parts : list string) : string :=
  match parts with
  | [] => EmptyString
  | [p] => p
  | p :: rest => (p ++ ", " ++ join_comma rest)%string
  end.

(** The arguments handed to the function of an action: words of the line,
    or what the turn puts in their place. *)
Inductive arg : Type :=
| AStr (s : string)
| AStock (stock : Stock.t)
| AFloat (f : float)
| ATrades (trades : list Trade.t)
| AStocks (stocks : registry)
| AStockValues (stocks : list Stock.t).

(** The next step of the loop after a turn. *)
Inductive outcome : Type :=
| Continue
| Break
| Crash (r : raised).

(** [calc_ratio] *)
Definition calc_ratio : value := VInt 0.

(** [pretty_print]: a line for each item, and the text when there was
    none. *)
Definition pretty_print (items : list obj) : L unit :=
  fun s =>
    let count := List.length items in
    let s' := Session.mk (Session.trades s) (Session.world s)
                (Session.output s ++ map PItem items) in
    if (count =? 0)%nat then print (PText "No items to show!") s'
    else (Done tt, s').

(** [print_help]: a line for each action. *)
Definition print_help : L unit :=
  fun s =>
    (Done tt,
     Session.mk (Session.trades s) (Session.world s)
       (Session.output s ++ map PHelp action_names)).

Section CommandLoop.

Variable int_of_str : string -> option Z.
Variable float_of_str : string -> option float.
Variable geometric_mean : list value -> result value.

(** [repr(s)] of a string, the interpreter's. *)
Variable str_repr : string -> string.

(** The message of [validate_symbol]: the symbol and the list of the keys
    of the registry. *)
Definition invalid_symbol_msg (symbol : string) (stocks : registry) : string :=
  ("Invalid stock symbol(" ++ symbol ++ "). Choose from: ["
   ++ join_comma (map str_repr (dict_keys stocks)) ++ "]")%string.

(** [validate_symbol] *)
Definition validate_symbol (symbol : string) (stocks : registry) : result unit :=
  if negb (existsb (String.eqb symbol) (dict_keys stocks))
  then Raise (ValueError (invalid_symbol_msg symbol stocks))
  else Ok tt.

(** The [match] of the loop: the arguments of the call, whether its result
    is printed, and whether [on_exit] appends it to the ledger. *)
Definition prepare (stocks : registry) (action : string) (args : list string)
    : L (list arg * bool * bool) :=
  if ((action =? "buy") || (action =? "sell"))%string then
    symbol <<- args_at args 0 ;;
    _ <<- engine (lift (validate_symbol symbol stocks)) ;;
    stock <<- engine (lift (dict_get stocks symbol)) ;;
    lret (AStock stock :: map AStr (tl args), true, true)
  else if (action =? "dividend_yield")%string then
    symbol <<- args_at args 0 ;;
    _ <<- engine (lift (validate_symbol symbol stocks)) ;;
    stock <<- engine (lift (dict_get stocks symbol)) ;;
    word <<- args_at args 1 ;;
    price <<- engine (lift (py_float float_of_str (VStr word))) ;;
    lret ([AStock stock; AFloat price], true, false)
  else if (action =? "volume_weighted_price")%string then
    symbol <<- args_at args 0 ;;
    _ <<- engine (lift (validate_symbol symbol stocks)) ;;
    stock <<- engine (lift (dict_get stocks symbol)) ;;
    trades <<- the_trades ;;
    lret ([AStock stock; ATrades trades], true, false)
  else if (action =? "gbce")%string then
    trades <<- the_trades ;;
    lret ([AStocks stocks; ATrades trades], true, false)
  else if (action =? "show_trades")%string then
    trades <<- the_trades ;;
    lret ([ATrades trades], false, false)
  else if (action =? "show_stocks")%string then
    lret ([AStockValues (map snd stocks)], false, false)
  else lret (map AStr args, true, false).

(** The call of the function bound to [action] on the unpacked [args], for
    the arguments that [prepare] builds: a call with the wrong number of
    arguments raises [TypeError].  The actions bound to [q] do not come
    here, so the last branch is 'show_stocks'. *)
Definition invoke (action : string) (args : list arg) : L obj :=
  if (action =? "help")%string then
    match args with
    | [] => _ <<- print_help ;; lret (OValue VNone)
    | _ => lraise (Engine TypeError)
    end
  else if (action =? "dividend_yield")%string then
    match args with
    | [AStock stock; AFloat price] =>
        y <<- engine (lift (calc_div_yield stock (VFloat price))) ;;
        lret (OValue y)
    | _ => lraise (Engine TypeError)
    end
  else if (action =? "p_to_e_ratio")%string then
    match args with
    | [] => lret (OValue calc_ratio)
    | _ => lraise (Engine TypeError)
    end
  else if (action =? "buy")%string then
    match args with
    | [AStock stock; AStr qty; AStr price] =>
        trade <<- engine (buy int_of_str float_of_str (Some stock)
                            (VStr qty) (VStr price)) ;;
        lret (OTrade trade)
    | _ => lraise (Engine TypeError)
    end
  else if (action =? "sell")%string then
    match args with
    | [AStock stock; AStr qty; AStr price] =>
        trade <<- engine (sell int_of_str float_of_str (Some stock)
                            (VStr qty) (VStr price)) ;;
        lret (OTrade trade)
    | _ => lraise (Engine TypeError)
    end
  else if (action =? "volume_weighted_price")%string then
    match args with
    | [AStock stock; ATrades trades] =>
        p <<- engine (calc_volume_weighted_price stock trades) ;;
        lret (OValue p)
    | _ => lraise (Engine TypeError)
    end
  else if (action =? "gbce")%string then
    match args with
    | [AStocks stocks; ATrades trades] =>
        index <<- engine (gbce geometric_mean stocks trades) ;;
        lret (OValue index)
    | _ => lraise (Engine TypeError)
    end
  else if (action =? "show_trades")%string then
    match args with
    | [ATrades trades] =>
        _ <<- pretty_print (map OTrade trades) ;; lret (OValue VNone)
    | _ => lraise (Engine TypeError)
    end
  else
    match args with
    | [AStockValues stocks] =>
        _ <<- pretty_print (map OStock stocks) ;; lret (OValue VNone)
    | _ => lraise (Engine TypeError)
    end.

(** [on_exit(result)] where it is [trades.append]. *)
Definition on_exit (append : bool) (result : obj) : L unit :=
  match append, result with
  | true, OTrade trade => append_trade trade
  | _, _ => lret tt
  end.

(** The body of the [try]: [Break] for the actions bound to [q]. *)
Definition turn (stocks : registry) (tokens : list string) : L outcome :=
  match tokens with
  | [] => lraise (Engine (ValueError unpack_msg))
  | action :: args =>
      let action := lower action in
      if existsb (String.eqb action) action_names then
        if ((action =? "exit") || (action =? "quit"))%string then lret Break
        else
          call <<- prepare stocks action args ;;
          let '(args, print_result, append) := call in
          result <<- invoke action args ;;
          _ <<- (if print_result then print (PResult result) else lret tt) ;;
          _ <<- on_exit append result ;;
          lret Continue
      else
        _ <<- print (PText invalid_action_msg) ;;
        lret Continue
  end.

(** A turn with its handler: [except (ValueError, TypeError) as e: print(e)]. *)
Definition step (stocks : registry) (tokens : list string) (s : Session.t)
    : outcome * Session.t :=
  match turn stocks tokens s with
  | (Done o, s') => (o, s')
  | (Failed (Engine (ValueError msg)), s') =>
      (Continue, snd (print (PError (ValueError msg)) s'))
  | (Failed (Engine TypeError), s') =>
      (Continue, snd (print (PError TypeError) s'))
  | (Failed r, s') => (Crash r, s')
  end.

(** The loop over the lines of a script, until it breaks, the program
    ends on an exception, or the script runs out. *)
Fixpoint run (stocks : registry) (script : list (list string)) (s : Session.t)
    : outcome * Session.t :=
  match script with
  | [] => (Continue, s)
  | tokens :: rest =>
      match step stocks tokens s with
      | (Continue, s') => run stocks rest s'
      | stopped => stopped
      end
  end.

End CommandLoop.

(** A trade of the ledger refers to a security of the registry. *)
Definition registered (stocks : registry) (trade : Trade.t) : Prop :=
  exists key, dict_get stocks key = Ok (Trade.stock trade).

(** The running sum of [calc_volume_weighted_price] starts at the int 0
    and is a float from the first amount on. *)
Definition running (acc : value) : Prop :=
  acc = VInt 0 \/ exists x, acc = VFloat x.

(** What [pretty_print] prints for a sequence of items. *)
Definition listing (items : list obj) : list printed :=
  match items with
  | [] => [PText "No items to show!"]
  | _ => map PItem items
  end.

(** The action word of a line is 'buy' or 'sell', in any case of the
    letters. *)
Definition is_side (action : string) : Prop :=
  lower action = "buy" \/ lower action = "sell".

(** The session at the start of the program. *)
Definition start (w : World) : Session.t := Session.mk [] w [].

(** [repr] of a string of letters and digits. *)
Definition plain_repr (s : string) : string := ("'" ++ s ++ "'")%string.

(** Sample sessions: a sale of POP priced NaN and a purchase older than
    the window, both one that the constructor returns. *)
Definition pop_trade_nan : Trade.t :=
  Trade.mk (noon - timedelta_minutes 1) POP false 1 nan.
Definition pop_trade_old : Trade.t :=
  Trade.mk (noon - timedelta_minutes 6) POP true 100 10%float.

(** * Properties *)

(** ** Strings and comparisons *)

Lemma lower_ascii_idem (c : ascii) : lower_ascii (lower_ascii c) = lower_ascii c.
Proof.
  destruct c as [[] [] [] [] [] [] [] []]; reflexivity.
Qed.

Lemma lower_idem (s : string) : lower (lower s) = lower s.
Proof.
  induction s as [|c s IH]; simpl.
  - reflexivity.
  - now rewrite lower_ascii_idem, IH.
Qed.

Lemma float_positive_not_le_zero (f : float) :
  PrimFloat.ltb 0%float f = true -> PrimFloat.leb f 0%float = false.
Proof.
  rewrite ltb_spec, leb_spec. unfold SFltb, SFleb.
  change (Prim2SF 0%float) with (S754_zero false).
  destruct (Prim2SF f) as [s|s| |s m e]; simpl; try destruct s; simpl; congruence.
Qed.

Lemma positive_le_zero (price : value) :
  positive price -> py_le_zero price = Ok false.
Proof.
  destruct price as [|z|f|s]; simpl; try contradiction; intros H.
  - f_equal. apply Z.leb_gt. exact H.
  - f_equal. now apply float_positive_not_le_zero.
Qed.

Lemma nonpositive_le_zero (price : value) :
  nonpositive price -> py_le_zero price = Ok true.
Proof.
  destruct price as [|z|f|s]; simpl; try contradiction; intros H.
  - f_equal. apply Z.leb_le. exact H.
  - now rewrite H.
Qed.

(** Multiplying a positive price by the int 100 does not fail. *)
Lemma positive_times_100 (price : value) :
  positive price -> exists scaled, py_mul price (VInt 100) = Ok scaled.
Proof.
  destruct price as [|z|f|s]; simpl; try contradiction; intros _.
  - eexists; reflexivity.
  - change (int_to_float 100) with (Ok 100%float). simpl. eexists; reflexivity.
Qed.

Section Properties.

(** The interpreter's part, as in [Engine]. *)
Variable int_of_str : string -> option Z.
Variable float_of_str : string -> option float.
Variable geometric_mean : list value -> result value.

(** ** Construction of securities *)

Lemma py_int_int_or_None (v : value) :
  int_or_None v -> v <> VNone -> exists z, v = VInt z /\ py_int int_of_str v = Ok z.
Proof.
  destruct v; simpl; try contradiction; intros _ _.
  eexists; split; reflexivity.
Qed.

(** A security that the constructor returned keeps its kind in lower case,
    and holds an int percentage when its kind is 'preferred'. *)
Lemma Stock_init_Ok symbol typ last_div fixed_div par_value stock :
  Stock_init int_of_str symbol typ last_div fixed_div par_value = Ok stock ->
  exists k, typ = Some k /\ Stock.typ stock = lower k
    /\ (lower k = "preferred" -> exists pct, Stock.fixed_div stock = VInt pct)
    /\ (lower k <> "preferred" -> Stock.fixed_div stock = fixed_div).
Proof.
  unfold Stock_init.
  destruct symbol as [sym|]; [|discriminate].
  destruct typ as [k|]; [|discriminate].
  destruct (is_None last_div || is_None par_value)%bool; [discriminate|].
  destruct (String.eqb_spec (lower k) "preferred") as [Hp|Hp].
  - destruct (is_None fixed_div); [discriminate|].
    destruct (py_int int_of_str fixed_div) as [pct|]; [|discriminate]. simpl.
    destruct (py_int int_of_str last_div); [|discriminate]. simpl.
    destruct (py_int int_of_str par_value); [|discriminate]. simpl.
    intros [= <-]. exists k. simpl. repeat split; eauto; intros; congruence.
  - simpl.
    destruct (py_int int_of_str last_div); [|discriminate]. simpl.
    destruct (py_int int_of_str par_value); [|discriminate]. simpl.
    intros [= <-]. exists k. simpl. repeat split; eauto; intros; congruence.
Qed.

(** ** Dividend yield *)

(** C1, as the program behaves: for every security and every price less
    than or equal to 0, [calc_div_yield] returns no yield, but the failure
    is the [NameError] of the unbound name [valueError], and not the
    [ValueError] 'Price must be greater than 0' that the line writes. *)
Theorem calc_div_yield_nonpositive_price (stock : Stock.t) (price : value) :
  nonpositive price ->
  calc_div_yield stock price = Raise (NameError "valueError")
  /\ (forall y, calc_div_yield stock price <> Ok y)
  /\ (forall msg, calc_div_yield stock price <> Raise (ValueError msg)).
Proof.
  intros H. unfold calc_div_yield.
  rewrite (nonpositive_le_zero price H). simpl.
  repeat split; intros; discriminate.
Qed.

(** C2: for a security that the constructor returned and a price greater
    than 0, [calc_div_yield] returns [last_div / price] when the kind is
    'common' and [(fixed_div * par_value) / (price * 100)] when the kind is
    'preferred', where [/] and [*] are the operators of the program.  A
    common security with last dividend 8 yields 4.0 at price 2, and a
    preferred one with percentage 2 and par value 100 yields 0.04 (the
    float nearest to it) at price 50, whether the price is a float or an
    int. *)
Theorem calc_div_yield_by_kind symbol typ last_div fixed_div par_value stock :
  Stock_init int_of_str symbol typ last_div fixed_div par_value = Ok stock ->
  (forall price, positive price ->
     (Stock.typ stock = "common" ->
        calc_div_yield stock price
        = py_truediv (VInt (Stock.last_div stock)) price)
     /\ (Stock.typ stock = "preferred" ->
         exists pct scaled,
           Stock.fixed_div stock = VInt pct
           /\ py_mul price (VInt 100) = Ok scaled
           /\ calc_div_yield stock price
              = py_truediv (VInt (pct * Stock.par_value stock)) scaled))
  /\ (Stock.typ stock = "common" -> Stock.last_div stock = 8 ->
      calc_div_yield stock (VFloat 2%float) = Ok (VFloat 4%float)
      /\ calc_div_yield stock (VInt 2) = Ok (VFloat 4%float))
  /\ (Stock.typ stock = "preferred" -> Stock.fixed_div stock = VInt 2 ->
      Stock.par_value stock = 100 ->
      calc_div_yield stock (VFloat 50%float) = Ok (VFloat 0x1.47ae147ae147bp-5%float)
      /\ calc_div_yield stock (VInt 50) = Ok (VFloat 0x1.47ae147ae147bp-5%float)).
Proof.
  intros Hinit.
  destruct (Stock_init_Ok _ _ _ _ _ _ Hinit) as (k & _ & Hk & Hpct & _).
  split; [|split].
  - intros price Hpos. unfold calc_div_yield.
    rewrite (positive_le_zero price Hpos). simpl. split.
    + intros Hc. rewrite Hc. reflexivity.
    + intros Hp. rewrite Hp. simpl.
      destruct Hpct as [pct Hf]; [congruence|].
      destruct (positive_times_100 price Hpos) as [scaled Hs].
      exists pct, scaled. rewrite Hf, Hs. simpl. auto.
  - intros Hc Hd. unfold calc_div_yield. rewrite Hc, Hd. split; reflexivity.
  - intros Hp Hf Hv. unfold calc_div_yield. rewrite Hp, Hf, Hv. split; reflexivity.
Qed.

(** C9: [calc_div_yield] has no branch for an unknown kind.  For every
    security whose kind in lower case is not 'common' and every price
    greater than 0 it evaluates [(fixed_div * par_value) / (price * 100)];
    and for a security that the constructor returned with such a kind and
    no [fixed_div] (the kind is then not 'preferred' either), the product
    [None * par_value] raises [TypeError]. *)
Theorem calc_div_yield_other_kind :
  (forall stock price,
     lower (Stock.typ stock) <> "common" -> positive price ->
     calc_div_yield stock price
     = (dividend <- py_mul (Stock.fixed_div stock) (VInt (Stock.par_value stock)) ;;
        scaled <- py_mul price (VInt 100) ;;
        py_truediv dividend scaled))
  /\ (forall symbol typ last_div par_value stock price,
       Stock_init int_of_str symbol (Some typ) last_div VNone par_value = Ok stock ->
       lower typ <> "common" -> positive price ->
       lower typ <> "preferred"
       /\ calc_div_yield stock price = Raise TypeError).
Proof.
  assert (Hother : forall stock price,
            lower (Stock.typ stock) <> "common" -> positive price ->
            calc_div_yield stock price
            = (dividend <- py_mul (Stock.fixed_div stock) (VInt (Stock.par_value stock)) ;;
               scaled <- py_mul price (VInt 100) ;;
               py_truediv dividend scaled)).
  { intros stock price Hk Hpos. unfold calc_div_yield.
    rewrite (positive_le_zero price Hpos). simpl.
    destruct (String.eqb_spec (lower (Stock.typ stock)) "common"); [contradiction|].
    reflexivity. }
  split; [exact Hother|].
  intros symbol typ last_div par_value stock price Hinit Hk Hpos.
  destruct (Stock_init_Ok _ _ _ _ _ _ Hinit) as (k & [= <-] & Htyp & Hpct & Hkeep).
  assert (Hnp : lower typ <> "preferred").
  { intros Hp. destruct (Hpct Hp) as [pct Hf].
    revert Hinit. unfold Stock_init.
    destruct symbol; [|discriminate].
    destruct (is_None last_div || is_None par_value)%bool; [discriminate|].
    rewrite Hp. simpl. discriminate. }
  split; [exact Hnp|].
  rewrite Hother; [|rewrite Htyp, lower_idem; exact Hk|exact Hpos].
  rewrite (Hkeep Hnp). reflexivity.
Qed.

(** ** Construction of securities, continued *)

(** C8, amended: with numeric fields that are ints or absent, the
    constructor raises [ValueError] if and only if a mandatory field is
    missing or the kind is 'preferred' and the percentage is missing; in
    every other case, an unrecognized kind included, it returns a
    security. *)
Theorem Stock_init_fails_iff symbol typ last_div fixed_div par_value :
  int_or_None last_div -> int_or_None fixed_div -> int_or_None par_value ->
  ((exists msg,
      Stock_init int_of_str symbol typ last_div fixed_div par_value
      = Raise (ValueError msg))
   <-> mandatory_missing symbol typ last_div par_value
       \/ preferred_without_percentage typ fixed_div)
  /\ (~ (mandatory_missing symbol typ last_div par_value
         \/ preferred_without_percentage typ fixed_div) ->
      exists stock,
        Stock_init int_of_str symbol typ last_div fixed_div par_value = Ok stock)
  /\ (unrecognized_kind typ ->
      symbol <> None -> last_div <> VNone -> par_value <> VNone ->
      exists stock,
        Stock_init int_of_str symbol typ last_div fixed_div par_value = Ok stock).
Proof.
  intros Hl Hf Hp.
  assert (Hok : ~ (mandatory_missing symbol typ last_div par_value
                   \/ preferred_without_percentage typ fixed_div) ->
                exists stock,
                  Stock_init int_of_str symbol typ last_div fixed_div par_value
                  = Ok stock).
  { intros Hn. unfold Stock_init.
    destruct symbol as [sym|];
      [|exfalso; apply Hn; left; unfold mandatory_missing; auto].
    destruct typ as [k|];
      [|exfalso; apply Hn; left; unfold mandatory_missing; auto].
    destruct last_div as [|ld| |]; try contradiction;
      [exfalso; apply Hn; left; unfold mandatory_missing; auto|].
    destruct par_value as [|pv| |]; try contradiction;
      [exfalso; apply Hn; left; unfold mandatory_missing; auto|].
    simpl.
    destruct (String.eqb_spec (lower k) "preferred") as [Hk|Hk].
    - destruct fixed_div as [|fd| |]; try contradiction.
      + exfalso. apply Hn. right. exists k. auto.
      + simpl. eexists; reflexivity.
    - simpl. eexists; reflexivity. }
  split; [split|split].
  - intros [msg Hmsg].
    destruct symbol as [sym|]; [|left; unfold mandatory_missing; auto].
    destruct typ as [k|]; [|left; unfold mandatory_missing; auto].
    destruct last_div as [|ld| |]; try contradiction;
      [left; unfold mandatory_missing; auto|].
    destruct par_value as [|pv| |]; try contradiction;
      [left; unfold mandatory_missing; auto|].
    right. exists k. revert Hmsg. unfold Stock_init. simpl.
    destruct (String.eqb_spec (lower k) "preferred") as [Hk|Hk].
    + destruct fixed_div as [|fd| |]; try contradiction; simpl; [auto|discriminate].
    + simpl. discriminate.
  - intros [Hm|(k & -> & Hk & ->)].
    + unfold Stock_init.
      destruct symbol as [sym|]; [|eexists; reflexivity].
      destruct typ as [k|]; [|eexists; reflexivity].
      destruct Hm as [Hm|[Hm|[Hm|Hm]]]; try discriminate; subst.
      * simpl. eexists; reflexivity.
      * replace (is_None last_div || is_None VNone)%bool with true
          by (destruct last_div; reflexivity).
        eexists; reflexivity.
    + unfold Stock_init.
      destruct symbol as [sym|]; [|eexists; reflexivity].
      destruct (is_None last_div || is_None par_value)%bool; [eexists; reflexivity|].
      rewrite Hk. simpl. eexists; reflexivity.
  - exact Hok.
  - intros (k & -> & Hc & Hk) Hs Hd Hv. apply Hok.
    intros [[Hm|[Hm|[Hm|Hm]]]|(k' & [= <-] & Hk' & _)]; congruence.
Qed.

(** ** Construction of trades *)

(** What [Trade.__init__] returns, the clock reading set apart. *)
Lemma Trade_init_run stock indicator qty price w :
  fst (Trade_init int_of_str float_of_str stock indicator qty price w)
  = (q <- py_int int_of_str qty ;;
     p <- py_float float_of_str price ;;
     match stock, indicator with
     | Some stock, Some indicator =>
         if ((q <=? 0) || PrimFloat.leb p 0%float)%bool
         then Raise (ValueError trade_positive_msg)
         else if negb ((lower indicator =? "buy")%string
                       || (lower indicator =? "sell")%string)
         then Raise (ValueError (trade_indicator_msg (lower indicator)))
         else Ok (Trade.mk (current_instant w) stock
                    (lower indicator =? "buy")%string q p)
     | _, _ => Raise (ValueError trade_mandatory_msg)
     end).
Proof.
  unfold Trade_init, bind, datetime_now, lift, raise, ret. simpl.
  destruct (py_int int_of_str qty) as [q|e]; simpl; [|reflexivity].
  destruct (py_float float_of_str price) as [p|e]; simpl; [|reflexivity].
  destruct stock as [s|]; [|reflexivity].
  destruct indicator as [ind|]; [|reflexivity].
  destruct ((q <=? 0) || PrimFloat.leb p 0%float)%bool; [reflexivity|].
  destruct (negb _); reflexivity.
Qed.

(** C7: when the quantity coerces to an int and the price to a float,
    [Trade.__init__] raises [ValueError] for every quantity less than or
    equal to 0, every price less than or equal to 0 and every side
    indicator that is not 'buy' or 'sell' in some case of the letters.
    Construction is all or nothing: whenever a trade is returned, its
    quantity and price are the coerced arguments, both are greater than 0
    (the price is not [<= 0]), its side is recognized and its security is
    the one given; so in each of the failing cases no trade is returned. *)
Theorem Trade_init_rejects stock indicator qty price w :
  (forall q p,
     py_int int_of_str qty = Ok q ->
     py_float float_of_str price = Ok p ->
     q <= 0 \/ PrimFloat.leb p 0%float = true \/ ~ recognized_side indicator ->
     exists msg,
       fst (Trade_init int_of_str float_of_str stock indicator qty price w)
       = Raise (ValueError msg))
  /\ (forall trade,
       fst (Trade_init int_of_str float_of_str stock indicator qty price w)
       = Ok trade ->
       py_int int_of_str qty = Ok (Trade.qty trade)
       /\ py_float float_of_str price = Ok (Trade.price trade)
       /\ 0 < Trade.qty trade
       /\ PrimFloat.leb (Trade.price trade) 0%float = false
       /\ recognized_side indicator
       /\ stock = Some (Trade.stock trade)
       /\ Trade.instant trade = current_instant w).
Proof.
  rewrite Trade_init_run. split.
  - intros q p Hq Hp Hbad. rewrite Hq, Hp. cbn [rbind].
    destruct stock as [s|]; [|eexists; reflexivity].
    destruct indicator as [ind|]; [|eexists; reflexivity].
    destruct ((q <=? 0) || PrimFloat.leb p 0%float)%bool eqn:Hguard;
      [eexists; reflexivity|].
    apply orb_false_iff in Hguard. destruct Hguard as [Hq0 Hp0].
    destruct Hbad as [Hbad|[Hbad|Hbad]].
    + apply Z.leb_gt in Hq0. lia.
    + congruence.
    + destruct (String.eqb_spec (lower ind) "buy") as [Hb|Hb].
      * exfalso. apply Hbad. exists ind. auto.
      * destruct (String.eqb_spec (lower ind) "sell") as [Hs|Hs].
        -- exfalso. apply Hbad. exists ind. auto.
        -- cbn [orb negb]. eexists; reflexivity.
  - intros trade.
    destruct (py_int int_of_str qty) as [q|e]; cbn [rbind]; [|discriminate].
    destruct (py_float float_of_str price) as [p|e]; cbn [rbind]; [|discriminate].
    destruct stock as [s|]; [|discriminate].
    destruct indicator as [ind|]; [|discriminate].
    destruct ((q <=? 0) || PrimFloat.leb p 0%float)%bool eqn:Hguard; [discriminate|].
    apply orb_false_iff in Hguard. destruct Hguard as [Hq0 Hp0].
    destruct (String.eqb_spec (lower ind) "buy") as [Hb|Hb].
    + cbn [orb negb]. intros [= <-]. cbn.
      apply Z.leb_gt in Hq0. repeat split; auto. exists ind. auto.
    + destruct (String.eqb_spec (lower ind) "sell") as [Hs|Hs];
        cbn [orb negb]; [|discriminate].
      intros [= <-]. cbn.
      apply Z.leb_gt in Hq0. repeat split; auto. exists ind. auto.
Qed.

Lemma py_int_not_mandatory (v : value) :
  py_int int_of_str v <> Raise (ValueError trade_mandatory_msg).
Proof.
  destruct v as [|z|f|s]; simpl; try discriminate.
  - unfold float_to_int. destruct (Prim2SF f); discriminate.
  - destruct (int_of_str s); discriminate.
Qed.

Lemma py_float_not_mandatory (v : value) :
  py_float float_of_str v <> Raise (ValueError trade_mandatory_msg).
Proof.
  destruct v as [|z|f|s]; simpl; try discriminate.
  - unfold int_to_float. destruct (PrimFloat.is_infinity _); discriminate.
  - destruct (float_of_str s); discriminate.
Qed.

(** C10: [qty] and [price] are coerced before the test for None.  With None
    for [qty] the call raises the [TypeError] of [int(None)]; with None for
    [price], once [qty] has coerced, it raises the [TypeError] of
    [float(None)]; and whenever the call raises the 'Mandatory fields'
    error, neither [qty] nor [price] is None: the missing argument is
    [stock] or [indicator]. *)
Theorem Trade_init_None_qty_price stock indicator qty price w :
  py_int int_of_str VNone = Raise TypeError
  /\ py_float float_of_str VNone = Raise TypeError
  /\ (qty = VNone ->
      fst (Trade_init int_of_str float_of_str stock indicator qty price w)
      = Raise TypeError)
  /\ (price = VNone -> (exists q, py_int int_of_str qty = Ok q) ->
      fst (Trade_init int_of_str float_of_str stock indicator qty price w)
      = Raise TypeError)
  /\ (fst (Trade_init int_of_str float_of_str stock indicator qty price w)
      = Raise (ValueError trade_mandatory_msg) ->
      qty <> VNone /\ price <> VNone /\ (stock = None \/ indicator = None)).
Proof.
  split; [reflexivity|]. split; [reflexivity|]. split; [|split].
  - intros ->. rewrite Trade_init_run. reflexivity.
  - intros -> [q Hq]. rewrite Trade_init_run, Hq. reflexivity.
  - rewrite Trade_init_run.
    destruct (py_int int_of_str qty) as [q|e] eqn:Hq; simpl.
    2:{ intros [= ->]. now apply py_int_not_mandatory in Hq. }
    destruct (py_float float_of_str price) as [p|e] eqn:Hp; simpl.
    2:{ intros [= ->]. now apply py_float_not_mandatory in Hp. }
    intros H. split; [intros ->; discriminate|]. split; [intros ->; discriminate|].
    destruct stock as [s|]; [|auto].
    destruct indicator as [ind|]; [|auto].
    exfalso. revert H.
    destruct ((q <=? 0) || PrimFloat.leb p 0%float)%bool; [discriminate|].
    destruct (negb _); discriminate.
Qed.

(** Every trade that the constructor returned has a positive quantity. *)
Lemma constructed_qty_positive (trade : Trade.t) :
  constructed int_of_str float_of_str trade -> 0 < Trade.qty trade.
Proof.
  intros (stock & indicator & qty & price & w & w' & H).
  apply (f_equal fst) in H. rewrite Trade_init_run in H. simpl in H.
  destruct (py_int int_of_str qty) as [q|]; [|discriminate]. simpl in H.
  destruct (py_float float_of_str price) as [p|]; [|discriminate]. simpl in H.
  destruct stock; [|discriminate]. destruct indicator; [|discriminate].
  destruct ((q <=? 0) || PrimFloat.leb p 0%float)%bool eqn:Hguard; [discriminate|].
  destruct (negb _); [discriminate|].
  injection H as <-. simpl.
  apply orb_false_iff in Hguard. destruct Hguard as [Hq _].
  now apply Z.leb_gt in Hq.
Qed.

(** ** Volume-weighted price *)

(** The loop adds up exactly the trades of the window. *)
Lemma vwp_loop_window now stock trades :
  forall weighted_price volume,
    vwp_loop (now - timedelta_minutes 5) stock trades weighted_price volume
    = (total <- sum_amounts_from weighted_price (window now stock trades) ;;
       Ok (total, volume + sum_quantities (window now stock trades))).
Proof.
  unfold window.
  induction trades as [|trade rest IH]; intros weighted_price volume;
    cbn [vwp_loop filter].
  - cbn. now rewrite Z.add_0_r.
  - change ((now - timedelta_minutes 5 <? Trade.instant trade)
            && (Stock.symbol (Trade.stock trade) =? Stock.symbol stock)%string)%bool
      with (in_window now stock trade).
    destruct (in_window now stock trade).
    + cbn [sum_amounts_from].
      destruct (py_mul (VFloat (Trade.price trade)) (VInt (Trade.qty trade)))
        as [amount|e]; cbn [rbind]; [|reflexivity].
      destruct (py_add weighted_price amount) as [acc|e]; cbn [rbind]; [|reflexivity].
      rewrite IH.
      destruct (sum_amounts_from acc (filter (in_window now stock) rest));
        cbn [rbind]; [|reflexivity].
      unfold sum_quantities. cbn [map fold_right]. now rewrite Z.add_assoc.
    + apply IH.
Qed.

Lemma sum_quantities_positive (trades : list Trade.t) :
  Forall (fun t => 0 < Trade.qty t) trades -> trades <> [] ->
  0 < sum_quantities trades.
Proof.
  unfold sum_quantities.
  induction 1 as [|t rest Ht Hrest IH]; intros Hne; [congruence|].
  simpl. destruct rest as [|t' rest'].
  - simpl. lia.
  - assert (0 < fold_right Z.add 0 (map Trade.qty (t' :: rest')))
      by (apply IH; discriminate).
    lia.
Qed.

Lemma window_In now stock trades trade :
  In trade (window now stock trades)
  <-> In trade trades
      /\ now - timedelta_minutes 5 < Trade.instant trade
      /\ Stock.symbol (Trade.stock trade) = Stock.symbol stock.
Proof.
  unfold window. rewrite filter_In. unfold in_window.
  rewrite andb_true_iff, Z.ltb_lt, String.eqb_eq. tauto.
Qed.

(** The call reads the clock once, whatever it returns. *)
Lemma calc_volume_weighted_price_world stock trades w :
  snd (calc_volume_weighted_price stock trades w) = advance 1 w.
Proof.
  unfold calc_volume_weighted_price, bind, datetime_now, lift, raise. simpl.
  destruct (vwp_loop _ stock trades (VInt 0) 0) as [[wp vol]|e]; [|reflexivity].
  destruct (vol =? 0); reflexivity.
Qed.

(** What the call returns, in terms of the window at the instant read. *)
Lemma calc_volume_weighted_price_run stock trades w :
  fst (calc_volume_weighted_price stock trades w)
  = (total <- sum_amounts (window (current_instant w) stock trades) ;;
     if sum_quantities (window (current_instant w) stock trades) =? 0
     then Raise (ValueError (no_activity_msg (Stock.symbol stock)))
     else py_truediv total
            (VInt (sum_quantities (window (current_instant w) stock trades)))).
Proof.
  unfold calc_volume_weighted_price, bind, datetime_now, lift, raise. simpl.
  rewrite vwp_loop_window. unfold sum_amounts.
  destruct (sum_amounts_from (VInt 0) (window (current_instant w) stock trades))
    as [total|e]; simpl; [|reflexivity].
  destruct (sum_quantities (window (current_instant w) stock trades) =? 0);
    reflexivity.
Qed.

Ltac split_ifs :=
  repeat match goal with
         | |- context [if ?b then _ else _] => destruct b; cbn [rbind]
         end.

Lemma py_mul_not_ValueError a b msg : py_mul a b <> Raise (ValueError msg).
Proof.
  destruct a, b; cbn [py_mul]; unfold int_to_float; split_ifs; discriminate.
Qed.

Lemma py_add_not_ValueError a b msg : py_add a b <> Raise (ValueError msg).
Proof.
  destruct a, b; cbn [py_add]; unfold int_to_float; split_ifs; discriminate.
Qed.

Lemma py_truediv_not_ValueError a b msg : py_truediv a b <> Raise (ValueError msg).
Proof.
  destruct a, b; cbn [py_truediv];
    unfold int_to_float, int_true_divide, float_true_divide;
    split_ifs; discriminate.
Qed.

Lemma sum_amounts_from_not_ValueError trades msg :
  forall acc, sum_amounts_from acc trades <> Raise (ValueError msg).
Proof.
  induction trades as [|trade rest IH]; intros acc; cbn [sum_amounts_from].
  - discriminate.
  - destruct (py_mul _ _) as [amount|e] eqn:Hm; cbn [rbind].
    + destruct (py_add acc amount) as [acc'|e] eqn:Ha; cbn [rbind].
      * apply IH.
      * intros [= ->]. now apply py_add_not_ValueError in Ha.
    + intros [= ->]. now apply py_mul_not_ValueError in Hm.
Qed.

(** The only [ValueError] of [calc_volume_weighted_price] is the report of
    no trading activity for the security. *)
Lemma calc_volume_weighted_price_ValueError stock trades w msg :
  fst (calc_volume_weighted_price stock trades w) = Raise (ValueError msg) ->
  msg = no_activity_msg (Stock.symbol stock).
Proof.
  rewrite calc_volume_weighted_price_run. unfold sum_amounts.
  destruct (sum_amounts_from _ _) as [total|e] eqn:Hs; cbn [rbind].
  - destruct (_ =? 0).
    + now intros [= <-].
    + intros H. now apply py_truediv_not_ValueError in H.
  - intros [= ->]. now apply sum_amounts_from_not_ValueError in Hs.
Qed.

(** C3: on a ledger of trades that the constructor returned,
    [calc_volume_weighted_price] selects exactly the trades whose instant
    is strictly greater than the instant read from the clock minus five
    minutes and whose security has the symbol of the given one (a trade
    exactly five minutes old is not selected); if none is selected it
    raises the no-trading-activity error with the symbol, and otherwise it
    returns the sum of [price * qty] divided by the sum of [qty] over the
    selected trades, in the arithmetic of the program; it raises no other
    [ValueError]. *)
Theorem calc_volume_weighted_price_spec stock trades w :
  Forall (constructed int_of_str float_of_str) trades ->
  fst (calc_volume_weighted_price stock trades w)
  = volumeWeightedPrice stock trades (current_instant w)
  /\ (forall trade,
       In trade (window (current_instant w) stock trades)
       <-> In trade trades
           /\ current_instant w - timedelta_minutes 5 < Trade.instant trade
           /\ Stock.symbol (Trade.stock trade) = Stock.symbol stock)
  /\ (forall trade,
       Trade.instant trade = current_instant w - timedelta_minutes 5 ->
       ~ In trade (window (current_instant w) stock trades))
  /\ (window (current_instant w) stock trades = [] ->
      fst (calc_volume_weighted_price stock trades w)
      = Raise (NoTradingActivity (Some (Stock.symbol stock))))
  /\ (window (current_instant w) stock trades <> [] ->
      fst (calc_volume_weighted_price stock trades w)
      = (total <- sum_amounts (window (current_instant w) stock trades) ;;
         py_truediv total
           (VInt (sum_quantities (window (current_instant w) stock trades)))))
  /\ (forall msg,
       fst (calc_volume_weighted_price stock trades w) = Raise (ValueError msg) ->
       window (current_instant w) stock trades = []
       /\ msg = no_activity_msg (Stock.symbol stock)).
Proof.
  intros Hall.
  assert (Hpos : Forall (fun t => 0 < Trade.qty t)
                   (window (current_instant w) stock trades)).
  { apply Forall_forall. intros t Ht. apply window_In in Ht.
    apply constructed_qty_positive.
    rewrite Forall_forall in Hall. apply Hall. tauto. }
  assert (Hempty : window (current_instant w) stock trades = [] ->
                   fst (calc_volume_weighted_price stock trades w)
                   = Raise (NoTradingActivity (Some (Stock.symbol stock)))).
  { intros He. rewrite calc_volume_weighted_price_run, He. reflexivity. }
  assert (Hsome : window (current_instant w) stock trades <> [] ->
                  fst (calc_volume_weighted_price stock trades w)
                  = (total <- sum_amounts (window (current_instant w) stock trades) ;;
                     py_truediv total
                       (VInt (sum_quantities
                                (window (current_instant w) stock trades))))).
  { intros Hne. rewrite calc_volume_weighted_price_run.
    pose proof (sum_quantities_positive _ Hpos Hne) as Hq.
    destruct (Z.eqb_spec
                (sum_quantities (window (current_instant w) stock trades)) 0);
      [lia|reflexivity]. }
  split; [|split; [|split; [|split; [|split]]]].
  - unfold volumeWeightedPrice.
    destruct (window (current_instant w) stock trades) as [|t sel] eqn:Hw.
    + now apply Hempty.
    + apply Hsome. discriminate.
  - intros trade. apply window_In.
  - intros trade Hi Hin. apply window_In in Hin. lia.
  - exact Hempty.
  - exact Hsome.
  - intros msg Hmsg.
    split; [|exact (calc_volume_weighted_price_ValueError _ _ _ _ Hmsg)].
    destruct (window (current_instant w) stock trades) as [|t sel] eqn:Hw;
      [reflexivity|].
    exfalso. rewrite Hsome in Hmsg by discriminate. unfold sum_amounts in Hmsg.
    destruct (sum_amounts_from (VInt 0) (t :: sel)) as [total|e] eqn:Hs;
      cbn [rbind] in Hmsg.
    + now apply py_truediv_not_ValueError in Hmsg.
    + injection Hmsg as ->. now apply sum_amounts_from_not_ValueError in Hs.
Qed.

(** The loop looks at the security through its symbol only. *)
Lemma vwp_loop_symbol cutoff_date s1 s2 trades :
  Stock.symbol s1 = Stock.symbol s2 ->
  forall weighted_price volume,
    vwp_loop cutoff_date s1 trades weighted_price volume
    = vwp_loop cutoff_date s2 trades weighted_price volume.
Proof.
  intros Hs. induction trades as [|trade rest IH]; intros wp vol; cbn [vwp_loop].
  - reflexivity.
  - rewrite Hs.
    destruct ((cutoff_date <? Trade.instant trade)
              && (Stock.symbol (Trade.stock trade) =? Stock.symbol s2)%string)%bool.
    + destruct (py_mul _ _) as [amount|e]; cbn [rbind]; [|reflexivity].
      destruct (py_add _ _) as [acc|e]; cbn [rbind]; [|reflexivity].
      apply IH.
    + apply IH.
Qed.

(** C4, amended: [calc_volume_weighted_price] takes the security and the
    trades only, and reads the current instant from the clock, once per
    call.  Its result is determined by the symbol of the security, the
    trades and the instant read: two calls that read the same instant for
    securities of the same symbol return the same result or the same
    failure. *)
Theorem calc_volume_weighted_price_reads_clock s1 s2 trades w1 w2 :
  current_instant w1 = current_instant w2 ->
  Stock.symbol s1 = Stock.symbol s2 ->
  fst (calc_volume_weighted_price s1 trades w1)
  = fst (calc_volume_weighted_price s2 trades w2)
  /\ snd (calc_volume_weighted_price s1 trades w1) = advance 1 w1
  /\ snd (calc_volume_weighted_price s2 trades w2) = advance 1 w2.
Proof.
  intros Hw Hs. split; [|split; apply calc_volume_weighted_price_world].
  unfold calc_volume_weighted_price, bind, datetime_now, lift, raise. simpl.
  rewrite Hw, (vwp_loop_symbol _ s1 s2 trades Hs), Hs.
  destruct (vwp_loop _ s2 trades (VInt 0) 0) as [[wp vol]|e]; [|reflexivity].
  destruct (vol =? 0); reflexivity.
Qed.

(** ** The composite index *)

Lemma no_activity_msg_prefix (symbol : string) :
  prefix no_activity_prefix (no_activity_msg symbol) = true.
Proof. reflexivity. Qed.

Lemma dict_get_In (d : registry) k v :
  NoDup (dict_keys d) -> In (k, v) d -> dict_get d k = Ok v.
Proof.
  unfold dict_keys.
  induction d as [|[k' v'] rest IH]; cbn [map fst dict_get]; intros Hnd Hin.
  - contradiction.
  - inversion Hnd as [|? ? Hnotin Hrest]; subst.
    destruct Hin as [[= -> ->]|Hin].
    + now rewrite String.eqb_refl.
    + destruct (String.eqb_spec k' k) as [->|_].
      * exfalso. apply Hnotin. change k with (fst (k, v)). now apply in_map.
      * now apply IH.
Qed.

(** The loop of [gbce] gathers the outcomes of the attempts. *)
Lemma gbce_loop_gather stocks trades w entries :
  (forall k s, In (k, s) entries -> dict_get stocks k = Ok s) ->
  forall i acc,
    fst (gbce_loop stocks (map fst entries) trades acc (advance i w))
    = gather (attempts_from w trades i (map snd entries)) acc.
Proof.
  induction entries as [|[k s] rest IH]; intros Hget i acc;
    cbn [map fst snd gbce_loop attempts_from gather].
  - reflexivity.
  - unfold bind at 1, lift at 1. rewrite (Hget k s) by (left; reflexivity).
    pose proof (calc_volume_weighted_price_world s trades (advance i w)) as Hw.
    pose proof (calc_volume_weighted_price_ValueError s trades (advance i w)) as He.
    destruct (calc_volume_weighted_price s trades (advance i w)) as [r w'].
    cbn [fst snd] in *. subst w'.
    change (advance 1 (advance i w)) with (advance (S i) w).
    assert (Hrest : forall k' s', In (k', s') rest -> dict_get stocks k' = Ok s')
      by (intros; apply Hget; right; assumption).
    destruct r as [p|e].
    + apply IH, Hrest.
    + destruct e as [msg| | | | |]; try reflexivity.
      rewrite (He msg eq_refl), no_activity_msg_prefix, String.eqb_refl.
      cbn [negb]. apply IH, Hrest.
Qed.

Lemma gather_settled outcomes :
  Forall settled outcomes ->
  forall acc, gather outcomes acc = Ok (acc ++ collected outcomes)%list.
Proof.
  induction 1 as [|[s r] rest Hs _ IH]; intros acc; cbn [gather collected].
  - now rewrite app_nil_r.
  - destruct Hs as [[p Hp]|Hn]; cbn [fst snd] in *; subst r.
    + rewrite IH, <- app_assoc. reflexivity.
    + cbn [NoTradingActivity]. rewrite String.eqb_refl. apply IH.
Qed.

Lemma gather_propagates pre s e post :
  Forall settled pre ->
  e <> NoTradingActivity (Some (Stock.symbol s)) ->
  forall acc, gather (pre ++ (s, Raise e) :: post)%list acc = Raise e.
Proof.
  intros Hpre Hne.
  induction Hpre as [|[s' r] rest Hs _ IH]; intros acc; cbn [app gather].
  - destruct e as [msg| | | | |]; try reflexivity.
    destruct (String.eqb_spec msg (no_activity_msg (Stock.symbol s))) as [->|_].
    + now elim Hne.
    + reflexivity.
  - destruct Hs as [[p Hp]|Hn]; cbn [fst snd] in *; subst r.
    + apply IH.
    + cbn [NoTradingActivity]. rewrite String.eqb_refl. apply IH.
Qed.

Lemma attempts_from_securities w trades securities :
  forall i, map fst (attempts_from w trades i securities) = securities.
Proof.
  induction securities as [|s rest IH]; intros i; cbn [attempts_from map fst].
  - reflexivity.
  - now rewrite IH.
Qed.

(** What [gbce] returns, in terms of the outcomes of the attempts. *)
Lemma gbce_run stocks trades w :
  NoDup (dict_keys stocks) ->
  fst (gbce geometric_mean stocks trades w)
  = (prices <- gather (attempts w stocks trades) [] ;;
     match prices with
     | [] => Raise (NoTradingActivity None)
     | _ => geometric_mean prices
     end).
Proof.
  intros Hnd. unfold gbce, bind, attempts, dict_keys.
  pose proof (gbce_loop_gather stocks trades w stocks
                (fun k s => dict_get_In stocks k s Hnd) 0 []) as Hloop.
  destruct w as [r c].
  change (advance 0 (mkWorld r c)) with (mkWorld r c) in Hloop.
  destruct (gbce_loop stocks (map fst stocks) trades [] (mkWorld r c))
    as [[prices|e] w'].
  - cbn [fst] in Hloop. rewrite <- Hloop. cbn [rbind].
    destruct prices; reflexivity.
  - cbn [fst] in Hloop. rewrite <- Hloop. reflexivity.
Qed.

(** C5: [gbce] attempts [calc_volume_weighted_price] for the securities of
    the registry in order.  A failure that is not the report of no trading
    activity for its security propagates to the caller, the attempts before
    it having returned a price or reported no activity; a report of no
    trading activity is swallowed and its security left out; when no price
    is collected the call raises the no-trading-activity error that names
    no symbol, and otherwise it hands the collected prices to
    [geometric_mean]. *)
Theorem gbce_error_policy stocks trades w :
  NoDup (dict_keys stocks) ->
  map fst (attempts w stocks trades) = map snd stocks
  /\ (forall pre s e post,
       attempts w stocks trades = (pre ++ (s, Raise e) :: post)%list ->
       Forall settled pre ->
       e <> NoTradingActivity (Some (Stock.symbol s)) ->
       fst (gbce geometric_mean stocks trades w) = Raise e)
  /\ (Forall settled (attempts w stocks trades) ->
      collected (attempts w stocks trades) = [] ->
      fst (gbce geometric_mean stocks trades w) = Raise (NoTradingActivity None))
  /\ (Forall settled (attempts w stocks trades) ->
      collected (attempts w stocks trades) <> [] ->
      fst (gbce geometric_mean stocks trades w)
      = geometric_mean (collected (attempts w stocks trades))).
Proof.
  intros Hnd. rewrite (gbce_run stocks trades w Hnd).
  split; [apply attempts_from_securities|]. split; [|split].
  - intros pre s e post Hsplit Hpre Hne.
    rewrite Hsplit, (gather_propagates pre s e post Hpre Hne). reflexivity.
  - intros Hall Hnone. rewrite (gather_settled _ Hall), Hnone. reflexivity.
  - intros Hall Hsome. rewrite (gather_settled _ Hall). cbn [app rbind].
    destruct (collected (attempts w stocks trades)); [congruence|reflexivity].
Qed.

End Properties.

(** * Concrete runs *)

Lemma calc_div_yield_nonpositive_price_witness :
  nonpositive (VFloat 0%float)
  /\ calc_div_yield POP (VFloat 0%float) = Raise (NameError "valueError").
Proof.
  split; [reflexivity|].
  apply (calc_div_yield_nonpositive_price POP (VFloat 0%float)). reflexivity.
Defined.

Lemma calc_div_yield_by_kind_witness :
  Stock_init decimal_int_of_str (Some "GIN") (Some "Preferred")
    (VInt 8) (VStr "2") (VStr "100") = Ok GIN
  /\ positive (VFloat 50%float)
  /\ calc_div_yield GIN (VFloat 50%float)
     = py_truediv (VInt (2 * 100)) (VFloat 5000%float).
Proof.
  assert (Hinit : Stock_init decimal_int_of_str (Some "GIN") (Some "Preferred")
                    (VInt 8) (VStr "2") (VStr "100") = Ok GIN) by reflexivity.
  assert (Hpos : positive (VFloat 50%float)) by reflexivity.
  split; [exact Hinit|]. split; [exact Hpos|].
  destruct (calc_div_yield_by_kind decimal_int_of_str _ _ _ _ _ _ Hinit)
    as (Hgeneral & _ & _).
  destruct (Hgeneral (VFloat 50%float) Hpos) as (_ & Hpreferred).
  destruct (Hpreferred eq_refl) as (pct & scaled & Hpct & Hscaled & Hyield).
  injection Hpct as <-. injection Hscaled as <-. exact Hyield.
Defined.

Lemma calc_div_yield_other_kind_witness :
  Stock_init decimal_int_of_str (Some "XYZ") (Some "Bogus")
    (VInt 1) VNone (VInt 100) = Ok XYZ
  /\ lower "Bogus" <> "common"
  /\ positive (VFloat 2%float)
  /\ calc_div_yield XYZ (VFloat 2%float) = Raise TypeError.
Proof.
  assert (Hinit : Stock_init decimal_int_of_str (Some "XYZ") (Some "Bogus")
                    (VInt 1) VNone (VInt 100) = Ok XYZ) by reflexivity.
  assert (Hkind : lower "Bogus" <> "common") by discriminate.
  assert (Hpos : positive (VFloat 2%float)) by reflexivity.
  split; [exact Hinit|]. split; [exact Hkind|]. split; [exact Hpos|].
  exact (proj2 (proj2 (calc_div_yield_other_kind decimal_int_of_str)
                  _ _ _ _ _ _ Hinit Hkind Hpos)).
Defined.

(** C8, as stated, fails: a kind that is neither 'common' nor 'preferred'
    is accepted, and the constructor returns the security. *)
Lemma Stock_init_accepts_unrecognized_kind :
  unrecognized_kind (Some "bogus")
  /\ Stock_init decimal_int_of_str (Some "XYZ") (Some "bogus")
       (VInt 1) VNone (VInt 100) = Ok XYZ.
Proof.
  split; [|reflexivity].
  exists "bogus". repeat split; discriminate.
Qed.

Lemma Stock_init_fails_iff_witness :
  int_or_None (VInt 1) /\ int_or_None VNone /\ int_or_None (VInt 100)
  /\ exists stock,
       Stock_init decimal_int_of_str (Some "XYZ") (Some "bogus")
         (VInt 1) VNone (VInt 100) = Ok stock.
Proof.
  repeat split.
  apply (Stock_init_fails_iff decimal_int_of_str (Some "XYZ") (Some "bogus")
           (VInt 1) VNone (VInt 100) I I I).
  - exists "bogus". repeat split; discriminate.
  - discriminate.
  - discriminate.
  - discriminate.
Defined.

Lemma Trade_init_rejects_witness :
  py_int decimal_int_of_str (VStr "0") = Ok 0
  /\ py_float decimal_float_of_str (VStr "10") = Ok 10%float
  /\ 0 <= 0
  /\ exists msg,
       fst (Trade_init decimal_int_of_str decimal_float_of_str
              (Some POP) (Some "buy") (VStr "0") (VStr "10") (ticking_world noon))
       = Raise (ValueError msg).
Proof.
  split; [reflexivity|]. split; [reflexivity|]. split; [lia|].
  apply (proj1 (Trade_init_rejects decimal_int_of_str decimal_float_of_str
                  (Some POP) (Some "buy") (VStr "0") (VStr "10")
                  (ticking_world noon))
           0 10%float eq_refl eq_refl).
  left. lia.
Defined.

Lemma Trade_init_None_qty_price_witness :
  fst (Trade_init decimal_int_of_str decimal_float_of_str
         (Some POP) (Some "buy") VNone (VStr "10") (ticking_world noon))
  = Raise TypeError
  /\ fst (Trade_init decimal_int_of_str decimal_float_of_str
            (Some POP) (Some "buy") (VStr "5") VNone (ticking_world noon))
     = Raise TypeError.
Proof.
  split.
  - exact (proj1 (proj2 (proj2
             (Trade_init_None_qty_price decimal_int_of_str decimal_float_of_str
                (Some POP) (Some "buy") VNone (VStr "10") (ticking_world noon))))
             eq_refl).
  - exact (proj1 (proj2 (proj2 (proj2
             (Trade_init_None_qty_price decimal_int_of_str decimal_float_of_str
                (Some POP) (Some "buy") (VStr "5") VNone (ticking_world noon)))))
             eq_refl (ex_intro _ 5 eq_refl)).
Defined.

(** The two purchases of POP are trades that the constructor returns. *)
Lemma pop_trades_constructed :
  Forall (constructed decimal_int_of_str decimal_float_of_str)
    [pop_trade_1; pop_trade_2].
Proof.
  repeat constructor.
  - exists (Some POP), (Some "buy"), (VStr "100"), (VStr "10"),
      (stopped_world (noon - timedelta_minutes 1)),
      (advance 1 (stopped_world (noon - timedelta_minutes 1))).
    reflexivity.
  - exists (Some POP), (Some "BUY"), (VInt 50), (VFloat 20%float),
      (stopped_world (noon - timedelta_minutes 2)),
      (advance 1 (stopped_world (noon - timedelta_minutes 2))).
    reflexivity.
Defined.

(** At noon both purchases are in the window: (10 * 100 + 20 * 50) / 150. *)
Lemma calc_volume_weighted_price_spec_witness :
  Forall (constructed decimal_int_of_str decimal_float_of_str)
    [pop_trade_1; pop_trade_2]
  /\ fst (calc_volume_weighted_price POP [pop_trade_1; pop_trade_2]
            (ticking_world noon))
     = volumeWeightedPrice POP [pop_trade_1; pop_trade_2] noon
  /\ volumeWeightedPrice POP [pop_trade_1; pop_trade_2] noon
     = Ok (VFloat 0x1.aaaaaaaaaaaabp+3%float).
Proof.
  split; [exact pop_trades_constructed|]. split; [|reflexivity].
  exact (proj1 (calc_volume_weighted_price_spec decimal_int_of_str
                  decimal_float_of_str POP [pop_trade_1; pop_trade_2]
                  (ticking_world noon) pop_trades_constructed)).
Defined.

(** C4, as stated, fails: the same security and the same trades give a
    price at noon and the no-trading-activity error four minutes later,
    when the only trade is exactly five minutes old. *)
Lemma calc_volume_weighted_price_depends_on_clock :
  fst (calc_volume_weighted_price POP [pop_trade_1] (ticking_world noon))
  = Ok (VFloat 10%float)
  /\ fst (calc_volume_weighted_price POP [pop_trade_1]
            (ticking_world (noon + timedelta_minutes 4)))
     = Raise (NoTradingActivity (Some "POP")).
Proof.
  split; reflexivity.
Qed.

Lemma calc_volume_weighted_price_reads_clock_witness :
  current_instant (ticking_world noon) = current_instant (stopped_world noon)
  /\ Stock.symbol POP = Stock.symbol POP_preferred
  /\ fst (calc_volume_weighted_price POP [pop_trade_1; pop_trade_2]
            (ticking_world noon))
     = fst (calc_volume_weighted_price POP_preferred [pop_trade_1; pop_trade_2]
              (stopped_world noon)).
Proof.
  split; [reflexivity|]. split; [reflexivity|].
  exact (proj1 (calc_volume_weighted_price_reads_clock POP POP_preferred
                  [pop_trade_1; pop_trade_2] (ticking_world noon)
                  (stopped_world noon) eq_refl eq_refl)).
Defined.

(** With an empty ledger every security of the catalog is left out, and
    with a quantity beyond the range of a float the [OverflowError] of POP
    reaches the caller, after the report for TEA was swallowed. *)
Lemma gbce_error_policy_witness :
  NoDup (dict_keys catalog)
  /\ fst (gbce geometric_mean_no_data catalog [] (ticking_world noon))
     = Raise (NoTradingActivity None)
  /\ fst (gbce geometric_mean_no_data catalog [pop_trade_huge] (ticking_world noon))
     = Raise OverflowError.
Proof.
  assert (Hnd : NoDup (dict_keys catalog)).
  { repeat constructor; cbn; intuition discriminate. }
  split; [exact Hnd|]. split.
  - apply (gbce_error_policy geometric_mean_no_data catalog [] (ticking_world noon) Hnd).
    + repeat constructor; right; reflexivity.
    + reflexivity.
  - apply (proj1 (proj2 (gbce_error_policy geometric_mean_no_data catalog
                           [pop_trade_huge] (ticking_world noon) Hnd))
             [(TEA, Raise (NoTradingActivity (Some "TEA")))] POP OverflowError
             (attempts_from (ticking_world noon) [pop_trade_huge] 2 [ALE; GIN; JOE])).
    + reflexivity.
    + repeat constructor; right; reflexivity.
    + discriminate.
Defined.

(** * Further properties of the engine *)

Section EngineProperties.

Variable int_of_str : string -> option Z.
Variable float_of_str : string -> option float.
Variable geometric_mean : list value -> result value.

(** ** Trades *)

(** [Trade.__init__] reads the clock once, whether it returns or raises. *)
Lemma Trade_init_world stock indicator qty price w :
  snd (Trade_init int_of_str float_of_str stock indicator qty price w)
  = advance 1 w.
Proof.
  unfold Trade_init, bind, datetime_now, lift, raise, ret. cbn [fst snd].
  destruct (py_int int_of_str qty) as [q|e]; [|reflexivity].
  destruct (py_float float_of_str price) as [p|e]; [|reflexivity].
  destruct stock as [s|]; [|reflexivity].
  destruct indicator as [ind|]; [|reflexivity].
  destruct ((q <=? 0) || PrimFloat.leb p 0%float)%bool; [reflexivity|].
  destruct (negb _); reflexivity.
Qed.

(** What a returned trade tells about the arguments. *)
Lemma Trade_init_inv stock indicator qty price w trade :
  fst (Trade_init int_of_str float_of_str stock indicator qty price w) = Ok trade ->
  exists s ind q p,
    stock = Some s /\ indicator = Some ind
    /\ py_int int_of_str qty = Ok q
    /\ py_float float_of_str price = Ok p
    /\ 0 < q /\ PrimFloat.leb p 0%float = false
    /\ (lower ind = "buy" \/ lower ind = "sell")
    /\ trade = Trade.mk (current_instant w) s (lower ind =? "buy")%string q p.
Proof.
  rewrite Trade_init_run.
  destruct (py_int int_of_str qty) as [q|e]; cbn [rbind]; [|discriminate].
  destruct (py_float float_of_str price) as [p|e]; cbn [rbind]; [|discriminate].
  destruct stock as [s|]; [|discriminate].
  destruct indicator as [ind|]; [|discriminate].
  destruct ((q <=? 0) || PrimFloat.leb p 0%float)%bool eqn:Hguard; [discriminate|].
  apply orb_false_iff in Hguard. destruct Hguard as [Hq Hp].
  apply Z.leb_gt in Hq.
  destruct (String.eqb_spec (lower ind) "buy") as [Hb|Hb].
  - cbn [orb negb]. intros [= <-]. exists s, ind, q, p.
    rewrite Hb. repeat split; auto.
  - destruct (String.eqb_spec (lower ind) "sell") as [Hs|Hs];
      cbn [orb negb]; [|discriminate].
    intros [= <-]. exists s, ind, q, p.
    rewrite Hs. repeat split; auto.
Qed.

(** X1: [Trade.__init__] returns a trade exactly when the security and the
    side are given, the side is 'buy' or 'sell' in some case of the
    letters, [int(qty)] is greater than 0 and [float(price)] is not
    [<= 0]; the trade then carries the instant read from the clock, the
    security, the side and the coerced quantity and price.  The clock is
    read once in every case. *)
Theorem Trade_init_returns_iff stock indicator qty price w trade :
  (fst (Trade_init int_of_str float_of_str stock indicator qty price w) = Ok trade
   <-> exists s ind q p,
         stock = Some s /\ indicator = Some ind
         /\ py_int int_of_str qty = Ok q
         /\ py_float float_of_str price = Ok p
         /\ 0 < q /\ PrimFloat.leb p 0%float = false
         /\ (lower ind = "buy" \/ lower ind = "sell")
         /\ trade = Trade.mk (current_instant w) s (lower ind =? "buy")%string q p)
  /\ snd (Trade_init int_of_str float_of_str stock indicator qty price w)
     = advance 1 w.
Proof.
  split; [|apply Trade_init_world].
  split; [apply Trade_init_inv|].
  intros (s & ind & q & p & -> & -> & Hq & Hp & Hq0 & Hp0 & Hside & ->).
  rewrite Trade_init_run, Hq, Hp. cbn [rbind].
  apply Z.leb_gt in Hq0. rewrite Hq0, Hp0. cbn [orb].
  destruct Hside as [Hs|Hs]; rewrite Hs; reflexivity.
Qed.

(** X2: the price test [price <= 0] lets NaN and infinity through: with a
    positive quantity and a recognized side, a price that coerces to NaN
    or to infinity gives a trade with that price. *)
Theorem Trade_init_accepts_nan_and_infinity s ind qty price q p w :
  py_int int_of_str qty = Ok q -> 0 < q ->
  lower ind = "buy" \/ lower ind = "sell" ->
  py_float float_of_str price = Ok p ->
  p = nan \/ p = infinity ->
  exists trade,
    fst (Trade_init int_of_str float_of_str (Some s) (Some ind) qty price w)
    = Ok trade
    /\ Trade.price trade = p /\ Trade.qty trade = q.
Proof.
  intros Hq Hq0 Hside Hp Hspecial.
  exists (Trade.mk (current_instant w) s (lower ind =? "buy")%string q p).
  split; [|split; reflexivity].
  rewrite Trade_init_run, Hq, Hp. cbn [rbind].
  apply Z.leb_gt in Hq0. rewrite Hq0.
  assert (Hp0 : PrimFloat.leb p 0%float = false)
    by (destruct Hspecial as [->| ->]; reflexivity).
  rewrite Hp0. cbn [orb].
  destruct Hside as [Hs|Hs]; rewrite Hs; reflexivity.
Qed.

(** The coercions never raise the error of an invalid side. *)
Lemma py_int_not_indicator (v : value) ind :
  py_int int_of_str v <> Raise (ValueError (trade_indicator_msg ind)).
Proof.
  destruct v as [|z|f|s]; cbn [py_int]; try discriminate.
  - unfold float_to_int. destruct (Prim2SF f); discriminate.
  - destruct (int_of_str s); discriminate.
Qed.

Lemma py_float_not_indicator (v : value) ind :
  py_float float_of_str v <> Raise (ValueError (trade_indicator_msg ind)).
Proof.
  destruct v as [|z|f|s]; cbn [py_float]; try discriminate.
  - unfold int_to_float. destruct (PrimFloat.is_infinity _); discriminate.
  - destruct (float_of_str s); discriminate.
Qed.

(** X3: [sell] behaves as [buy] but for the side it marks: it returns when
    [buy] returns, the same trade with [is_buy] false instead of true, it
    raises what [buy] raises, and leaves the same clock.  Neither raises
    the error of an invalid side. *)
Theorem sell_mirrors_buy stock qty price w :
  fst (sell int_of_str float_of_str stock qty price w)
  = match fst (buy int_of_str float_of_str stock qty price w) with
    | Ok trade =>
        Ok (Trade.mk (Trade.instant trade) (Trade.stock trade) false
              (Trade.qty trade) (Trade.price trade))
    | Raise e => Raise e
    end
  /\ snd (sell int_of_str float_of_str stock qty price w)
     = snd (buy int_of_str float_of_str stock qty price w)
  /\ (forall trade,
       fst (buy int_of_str float_of_str stock qty price w) = Ok trade ->
       Trade.is_buy trade = true)
  /\ (forall ind,
       fst (buy int_of_str float_of_str stock qty price w)
       <> Raise (ValueError (trade_indicator_msg ind))
       /\ fst (sell int_of_str float_of_str stock qty price w)
          <> Raise (ValueError (trade_indicator_msg ind))).
Proof.
  unfold buy, sell. rewrite !Trade_init_world, !Trade_init_run.
  destruct (py_int int_of_str qty) as [q|e] eqn:Hq; cbn [rbind].
  2:{ repeat split; try discriminate;
        intros [= ->]; now apply py_int_not_indicator in Hq. }
  destruct (py_float float_of_str price) as [p|e] eqn:Hp; cbn [rbind].
  2:{ repeat split; try discriminate;
        intros [= ->]; now apply py_float_not_indicator in Hp. }
  destruct stock as [s|]; [|repeat split; discriminate].
  destruct ((q <=? 0) || PrimFloat.leb p 0%float)%bool;
    [repeat split; discriminate|].
  cbn. repeat split; try discriminate. now intros trade [= <-].
Qed.

(** ** Securities *)

(** X4: feeding the fields of a security that the constructor returned
    back to the constructor returns the same security: the kind is already
    in lower case and the numbers are already ints. *)
Theorem Stock_init_round_trip symbol typ last_div fixed_div par_value stock :
  Stock_init int_of_str symbol typ last_div fixed_div par_value = Ok stock ->
  Stock_init int_of_str (Some (Stock.symbol stock)) (Some (Stock.typ stock))
    (VInt (Stock.last_div stock)) (Stock.fixed_div stock)
    (VInt (Stock.par_value stock))
  = Ok stock.
Proof.
  intros Hinit.
  destruct (Stock_init_Ok int_of_str _ _ _ _ _ _ Hinit)
    as (k & -> & Htyp & Hpct & Hkeep).
  destruct stock as [sym ty ld fd pv]. cbn [Stock.symbol Stock.typ Stock.last_div
    Stock.fixed_div Stock.par_value] in *. subst ty.
  unfold Stock_init. cbn [is_None orb]. rewrite lower_idem.
  destruct (String.eqb_spec (lower k) "preferred") as [Hp|Hp].
  - destruct (Hpct Hp) as [pct ->]. reflexivity.
  - reflexivity.
Qed.

(** ** Dividend yield *)

Lemma float_positive_not_zero (f : float) :
  PrimFloat.ltb 0%float f = true -> PrimFloat.eqb f 0%float = false.
Proof.
  rewrite ltb_spec, eqb_spec. unfold SFltb, SFeqb.
  change (Prim2SF 0%float) with (S754_zero false).
  destruct (Prim2SF f) as [s|s| |s m e]; simpl; try destruct s; simpl; congruence.
Qed.

(** Whatever [/] returns is a float. *)
Lemma py_truediv_float a b v :
  py_truediv a b = Ok v -> exists x, v = VFloat x.
Proof.
  destruct a, b; cbn [py_truediv]; try discriminate.
  all: repeat match goal with
       | |- context [rbind ?r _] => destruct r; cbn [rbind]
       end; try discriminate.
  all: intros [= <-]; eexists; reflexivity.
Qed.

(** X5: for a security whose kind is 'common' and a price greater than 0
    the call never divides by zero: it returns a float, or raises
    [OverflowError] when an int is beyond the range of a float.  With a
    float price and a last dividend within that range it returns their
    quotient. *)
Theorem calc_div_yield_common_total stock price :
  lower (Stock.typ stock) = "common" -> positive price ->
  ((exists x, calc_div_yield stock price = Ok (VFloat x))
   \/ calc_div_yield stock price = Raise OverflowError)
  /\ (forall f g,
       price = VFloat f -> int_to_float (Stock.last_div stock) = Ok g ->
       calc_div_yield stock price = Ok (VFloat (PrimFloat.div g f))).
Proof.
  intros Hk Hpos. unfold calc_div_yield.
  rewrite (positive_le_zero price Hpos), Hk. cbn [rbind String.eqb].
  change (("common" =? "common")%string) with true. cbn iota.
  destruct price as [|z|f|s]; cbn [positive] in Hpos; try contradiction;
    cbn [py_truediv].
  - split; [|discriminate].
    unfold int_true_divide.
    destruct (Z.eqb_spec z 0) as [->|_]; [lia|].
    destruct (PrimFloat.is_infinity _); cbn [rbind];
      [right; reflexivity|left; eexists; reflexivity].
  - unfold float_true_divide. rewrite (float_positive_not_zero f Hpos). split.
    + unfold int_to_float.
      destruct (PrimFloat.is_infinity _); cbn [rbind];
        [right; reflexivity|left; eexists; reflexivity].
    + intros f' g [= <-] Hg. rewrite Hg. reflexivity.
Qed.

(** ** Volume-weighted price *)

Lemma window_idem now security trades :
  window now security (window now security trades) = window now security trades.
Proof.
  unfold window. induction trades as [|t rest IH]; cbn [filter].
  - reflexivity.
  - destruct (in_window now security t) eqn:Ht; cbn [filter].
    + now rewrite Ht, IH.
    + exact IH.
Qed.

Lemma window_app now security l1 l2 :
  window now security (l1 ++ l2)
  = (window now security l1 ++ window now security l2)%list.
Proof. unfold window. apply filter_app. Qed.

(** X6: the result depends on the ledger through the window only: two
    ledgers with the same trades in the window give the same result, and
    a trade outside the window (older, or of another security) can be
    taken out of the ledger or put into it without changing the result. *)
Theorem calc_volume_weighted_price_only_window stock w :
  (forall l1 l2,
     window (current_instant w) stock l1 = window (current_instant w) stock l2 ->
     fst (calc_volume_weighted_price stock l1 w)
     = fst (calc_volume_weighted_price stock l2 w))
  /\ (forall before trade after,
       in_window (current_instant w) stock trade = false ->
       fst (calc_volume_weighted_price stock (before ++ trade :: after) w)
       = fst (calc_volume_weighted_price stock (before ++ after) w))
  /\ (forall trades,
       fst (calc_volume_weighted_price stock trades w)
       = fst (calc_volume_weighted_price stock
                (window (current_instant w) stock trades) w)).
Proof.
  assert (Hsame : forall l1 l2,
            window (current_instant w) stock l1
            = window (current_instant w) stock l2 ->
            fst (calc_volume_weighted_price stock l1 w)
            = fst (calc_volume_weighted_price stock l2 w)).
  { intros l1 l2 H. rewrite !calc_volume_weighted_price_run, H. reflexivity. }
  split; [exact Hsame|]. split.
  - intros before trade after Hout. apply Hsame.
    rewrite !window_app. f_equal.
    unfold window. cbn [filter]. now rewrite Hout.
  - intros trades. apply Hsame. symmetry. apply window_idem.
Qed.

(** The loop does not look at the side of a trade. *)
Lemma vwp_loop_side (side : Trade.t -> bool) cutoff_date stock trades :
  forall weighted_price volume,
    vwp_loop cutoff_date stock
      (map (fun t => Trade.mk (Trade.instant t) (Trade.stock t) (side t)
                       (Trade.qty t) (Trade.price t)) trades)
      weighted_price volume
    = vwp_loop cutoff_date stock trades weighted_price volume.
Proof.
  induction trades as [|t rest IH]; intros wp vol; cbn [map vwp_loop].
  - reflexivity.
  - cbn [Trade.instant Trade.stock Trade.qty Trade.price].
    destruct ((cutoff_date <? Trade.instant t)
              && (Stock.symbol (Trade.stock t) =? Stock.symbol stock)%string)%bool.
    + destruct (py_mul _ _) as [amount|e]; cbn [rbind]; [|reflexivity].
      destruct (py_add _ _) as [acc|e]; cbn [rbind]; [|reflexivity].
      apply IH.
    + apply IH.
Qed.

(** X7: purchases and sales weigh alike: marking the trades of the ledger
    with any other sides leaves the result as it is. *)
Theorem calc_volume_weighted_price_ignores_side (side : Trade.t -> bool)
    stock trades w :
  fst (calc_volume_weighted_price stock
         (map (fun t => Trade.mk (Trade.instant t) (Trade.stock t) (side t)
                          (Trade.qty t) (Trade.price t)) trades) w)
  = fst (calc_volume_weighted_price stock trades w).
Proof.
  unfold calc_volume_weighted_price, bind, datetime_now, lift, raise.
  cbn [fst snd]. now rewrite vwp_loop_side.
Qed.

(** X8: whatever [calc_div_yield] and [calc_volume_weighted_price] return
    is a float, never an int, a string or None. *)
Theorem metrics_return_floats :
  (forall stock price y,
     calc_div_yield stock price = Ok y -> exists x, y = VFloat x)
  /\ (forall stock trades w p,
       fst (calc_volume_weighted_price stock trades w) = Ok p ->
       exists x, p = VFloat x).
Proof.
  split.
  - intros stock price y. unfold calc_div_yield.
    destruct (py_le_zero price) as [[|]|e]; cbn [rbind]; try discriminate.
    destruct (lower (Stock.typ stock) =? "common")%string.
    + apply py_truediv_float.
    + destruct (py_mul _ _) as [dividend|e]; cbn [rbind]; [|discriminate].
      destruct (py_mul _ _) as [scaled|e]; cbn [rbind]; [|discriminate].
      apply py_truediv_float.
  - intros stock trades w p. rewrite calc_volume_weighted_price_run.
    destruct (sum_amounts _) as [total|e]; cbn [rbind]; [|discriminate].
    destruct (_ =? 0); [discriminate|]. apply py_truediv_float.
Qed.

(** *** Sums of amounts and NaN *)

Lemma nan_mul (g : float) : PrimFloat.mul nan g = nan.
Proof.
  rewrite <- (SF2Prim_Prim2SF (PrimFloat.mul nan g)), mul_spec. reflexivity.
Qed.

Lemma nan_add_l (g : float) : PrimFloat.add nan g = nan.
Proof.
  rewrite <- (SF2Prim_Prim2SF (PrimFloat.add nan g)), add_spec. reflexivity.
Qed.

Lemma nan_add_r (f : float) : PrimFloat.add f nan = nan.
Proof.
  rewrite <- (SF2Prim_Prim2SF (PrimFloat.add f nan)), add_spec.
  change (Prim2SF nan) with S754_nan.
  destruct (Prim2SF f); reflexivity.
Qed.

Lemma nan_div (g : float) : PrimFloat.div nan g = nan.
Proof.
  rewrite <- (SF2Prim_Prim2SF (PrimFloat.div nan g)), div_spec. reflexivity.
Qed.

(** One more trade: the sum overflows, or goes on from a float, which is
    NaN when the price of the trade is. *)
Lemma sum_amounts_from_step t rest acc :
  running acc ->
  sum_amounts_from acc (t :: rest) = Raise OverflowError
  \/ exists y,
       sum_amounts_from acc (t :: rest) = sum_amounts_from (VFloat y) rest
       /\ (Trade.price t = nan -> y = nan).
Proof.
  intros Hacc. cbn [sum_amounts_from py_mul]. unfold int_to_float at 1 2.
  destruct (PrimFloat.is_infinity (float_of_Z (Trade.qty t)));
    cbn [rbind]; [now left|].
  right. destruct Hacc as [->|[x ->]]; cbn [py_add].
  - change (int_to_float 0) with (Ok 0%float). cbn [rbind].
    eexists. split; [reflexivity|].
    intros ->. now rewrite nan_mul, nan_add_r.
  - cbn [rbind]. eexists. split; [reflexivity|].
    intros ->. now rewrite nan_mul, nan_add_r.
Qed.

(** The sum of the amounts fails by overflow only; it is a float, unless
    there was no trade to add. *)
Lemma sum_amounts_from_cases trades :
  forall acc, running acc ->
    sum_amounts_from acc trades = Raise OverflowError
    \/ (trades = [] /\ sum_amounts_from acc trades = Ok acc)
    \/ (trades <> [] /\ exists x, sum_amounts_from acc trades = Ok (VFloat x)).
Proof.
  induction trades as [|t rest IH]; intros acc Hacc.
  - right. left. auto.
  - destruct (sum_amounts_from_step t rest acc Hacc) as [->|[y [-> _]]];
      [now left|].
    destruct (IH (VFloat y) (or_intror (ex_intro _ y eq_refl)))
      as [H|[[-> H]|[_ [x H]]]].
    + now left.
    + right. right. split; [discriminate|]. exists y. exact H.
    + right. right. split; [discriminate|]. exists x. exact H.
Qed.

(** Once the running sum is NaN it stays NaN. *)
Lemma sum_amounts_from_nan trades :
  sum_amounts_from (VFloat nan) trades = Ok (VFloat nan)
  \/ sum_amounts_from (VFloat nan) trades = Raise OverflowError.
Proof.
  induction trades as [|t rest IH]; cbn [sum_amounts_from].
  - now left.
  - cbn [py_mul]. unfold int_to_float.
    destruct (PrimFloat.is_infinity (float_of_Z (Trade.qty t)));
      cbn [rbind py_add]; [now right|].
    rewrite nan_add_l. exact IH.
Qed.

(** A trade priced NaN turns the running sum into NaN. *)
Lemma sum_amounts_from_poisoned trades :
  forall acc, running acc ->
    (exists t, In t trades /\ Trade.price t = nan) ->
    sum_amounts_from acc trades = Ok (VFloat nan)
    \/ sum_amounts_from acc trades = Raise OverflowError.
Proof.
  induction trades as [|t rest IH]; intros acc Hacc [t0 [Hin Hnan]].
  - contradiction.
  - destruct (sum_amounts_from_step t rest acc Hacc) as [->|[y [-> Hy]]];
      [now right|].
    destruct Hin as [->|Hin].
    + rewrite (Hy Hnan). apply sum_amounts_from_nan.
    + apply IH; [right; eauto|eauto].
Qed.

(** With a trade in the window the call divides the sum of the amounts by
    a volume that is not 0. *)
Lemma calc_volume_weighted_price_nonempty stock trades w :
  Forall (constructed int_of_str float_of_str) trades ->
  window (current_instant w) stock trades <> [] ->
  fst (calc_volume_weighted_price stock trades w)
  = (total <- sum_amounts (window (current_instant w) stock trades) ;;
     py_truediv total
       (VInt (sum_quantities (window (current_instant w) stock trades)))).
Proof.
  intros Hall Hne. rewrite calc_volume_weighted_price_run.
  assert (Hpos : Forall (fun t => 0 < Trade.qty t)
                   (window (current_instant w) stock trades)).
  { apply Forall_forall. intros t Ht. apply window_In in Ht.
    apply (constructed_qty_positive int_of_str float_of_str).
    rewrite Forall_forall in Hall. apply Hall. tauto. }
  pose proof (sum_quantities_positive _ Hpos Hne) as Hq.
  destruct (sum_amounts _) as [total|e]; cbn [rbind]; [|reflexivity].
  destruct (Z.eqb_spec (sum_quantities (window (current_instant w) stock trades)) 0);
    [lia|reflexivity].
Qed.

(** With a trade in the window the call returns a float or fails in the
    arithmetic. *)
Lemma calc_volume_weighted_price_active stock trades w :
  Forall (constructed int_of_str float_of_str) trades ->
  window (current_instant w) stock trades <> [] ->
  (exists x, fst (calc_volume_weighted_price stock trades w) = Ok (VFloat x))
  \/ fst (calc_volume_weighted_price stock trades w) = Raise OverflowError
  \/ fst (calc_volume_weighted_price stock trades w) = Raise ZeroDivisionError.
Proof.
  intros Hall Hne.
  rewrite (calc_volume_weighted_price_nonempty stock trades w Hall Hne).
  unfold sum_amounts.
  destruct (sum_amounts_from_cases (window (current_instant w) stock trades)
              (VInt 0) (or_introl eq_refl)) as [->|[[He _]|[_ [x ->]]]].
  - right. left. reflexivity.
  - contradiction.
  - cbn [rbind py_truediv]. unfold int_to_float.
    destruct (PrimFloat.is_infinity _); cbn [rbind]; [right; left; reflexivity|].
    unfold float_true_divide.
    destruct (PrimFloat.eqb _ _); cbn [rbind];
      [right; right; reflexivity|left; eauto].
Qed.

(** X9: with a trade in the window, on a ledger of trades that the
    constructor returned, the call does not report missing activity: it
    returns a float, or raises [OverflowError] or [ZeroDivisionError] from
    the arithmetic.  If a trade of the window is priced NaN (a price that
    the constructor accepts), the only float it can return is NaN. *)
Theorem calc_volume_weighted_price_with_activity stock trades w :
  Forall (constructed int_of_str float_of_str) trades ->
  window (current_instant w) stock trades <> [] ->
  ((exists x, fst (calc_volume_weighted_price stock trades w) = Ok (VFloat x))
   \/ fst (calc_volume_weighted_price stock trades w) = Raise OverflowError
   \/ fst (calc_volume_weighted_price stock trades w) = Raise ZeroDivisionError)
  /\ ((exists t, In t (window (current_instant w) stock trades)
                 /\ Trade.price t = nan) ->
      forall p, fst (calc_volume_weighted_price stock trades w) = Ok p ->
                p = VFloat nan).
Proof.
  intros Hall Hne.
  split; [now apply calc_volume_weighted_price_active|].
  rewrite (calc_volume_weighted_price_nonempty stock trades w Hall Hne).
  unfold sum_amounts.
  intros Hnan p.
  destruct (sum_amounts_from_poisoned _ (VInt 0) (or_introl eq_refl) Hnan)
    as [-> | ->]; cbn [rbind]; [|discriminate].
  cbn [py_truediv]. unfold int_to_float.
  destruct (PrimFloat.is_infinity _); cbn [rbind]; [discriminate|].
  unfold float_true_divide.
  destruct (PrimFloat.eqb _ _); cbn [rbind]; [discriminate|].
  rewrite nan_div. now intros [= <-].
Qed.

(** ** The composite index *)

Lemma attempts_from_no_activity w trades securities :
  forall i,
    (forall j s, In s securities ->
                 window (current_instant (advance j w)) s trades = []) ->
    Forall settled (attempts_from w trades i securities)
    /\ collected (attempts_from w trades i securities) = [].
Proof.
  induction securities as [|s rest IH]; intros i Hnone;
    cbn [attempts_from collected].
  - split; [constructor|reflexivity].
  - assert (Hs : fst (calc_volume_weighted_price s trades (advance i w))
                 = Raise (NoTradingActivity (Some (Stock.symbol s)))).
    { rewrite calc_volume_weighted_price_run, (Hnone i s) by (left; reflexivity).
      reflexivity. }
    rewrite Hs.
    destruct (IH (S i)) as [Hall Hcol].
    { intros j s' Hin. apply Hnone. right. exact Hin. }
    split; [|exact Hcol].
    constructor; [right; reflexivity|exact Hall].
Qed.

(** X10: when no security of the registry has a trade in its window at any
    reading of the clock, and so with an empty ledger or an empty
    registry, [gbce] raises the no-trading-activity error that names no
    symbol, and [geometric_mean] is not consulted. *)
Theorem gbce_no_activity stocks trades w :
  NoDup (dict_keys stocks) ->
  (forall j s, In s (map snd stocks) ->
               window (current_instant (advance j w)) s trades = []) ->
  fst (gbce geometric_mean stocks trades w) = Raise (NoTradingActivity None).
Proof.
  intros Hnd Hnone.
  rewrite (gbce_run geometric_mean stocks trades w Hnd).
  destruct (attempts_from_no_activity w trades (map snd stocks) 0 Hnone)
    as [Hall Hcol].
  unfold attempts. rewrite (gather_settled _ Hall), Hcol. reflexivity.
Qed.

End EngineProperties.

(** * Properties of the command loop *)

Section LoopProperties.

Variable int_of_str : string -> option Z.
Variable float_of_str : string -> option float.
Variable geometric_mean : list value -> result value.
Variable str_repr : string -> string.


(** ** Symbols *)

Lemma existsb_keys_dict_get (stocks : registry) symbol :
  existsb (String.eqb symbol) (dict_keys stocks) = true
  <-> exists stock, dict_get stocks symbol = Ok stock.
Proof.
  unfold dict_keys.
  induction stocks as [|[k v] rest IH]; cbn [map fst existsb dict_get].
  - split; [discriminate|intros [stock H]; discriminate].
  - rewrite (String.eqb_sym symbol k).
    destruct (k =? symbol)%string; cbn [orb].
    + split; [eauto|reflexivity].
    + exact IH.
Qed.

Lemma dict_get_KeyError (stocks : registry) symbol e :
  dict_get stocks symbol = Raise e -> e = KeyError symbol.
Proof.
  induction stocks as [|[k v] rest IH]; cbn [dict_get].
  - now intros [= <-].
  - destruct (k =? symbol)%string; [discriminate|exact IH].
Qed.

(** X11: [validate_symbol] returns exactly when the symbol is a key of the
    registry, so the lookup that follows it cannot raise [KeyError];
    otherwise it raises [ValueError]. *)
Theorem validate_symbol_lookup symbol stocks :
  (validate_symbol str_repr symbol stocks = Ok tt
   <-> exists stock, dict_get stocks symbol = Ok stock)
  /\ (validate_symbol str_repr symbol stocks <> Ok tt ->
      (exists msg, validate_symbol str_repr symbol stocks = Raise (ValueError msg))
      /\ dict_get stocks symbol = Raise (KeyError symbol)).
Proof.
  unfold validate_symbol.
  pose proof (existsb_keys_dict_get stocks symbol) as Hkeys.
  destruct (existsb (String.eqb symbol) (dict_keys stocks)); cbn [negb].
  - split; [split; [intros _; now apply Hkeys|reflexivity]|].
    intros H. now elim H.
  - split.
    + split; [discriminate|].
      intros Hex. apply Hkeys in Hex. discriminate.
    + intros _. split; [eexists; reflexivity|].
      destruct (dict_get stocks symbol) as [stock|e] eqn:Hget.
      * assert (false = true) by (apply Hkeys; eauto). discriminate.
      * now rewrite (dict_get_KeyError _ _ _ Hget).
Qed.

(** ** One turn *)

Ltac turn_cbn H :=
  cbn -[buy sell calc_volume_weighted_price gbce validate_symbol dict_get
        calc_div_yield py_float String.eqb lower] in H.

Lemma action_names_cases (a : string) :
  existsb (String.eqb a) action_names = true ->
  a = "help" \/ a = "dividend_yield" \/ a = "p_to_e_ratio" \/ a = "buy"
  \/ a = "sell" \/ a = "volume_weighted_price" \/ a = "gbce"
  \/ a = "show_trades" \/ a = "show_stocks" \/ a = "exit" \/ a = "quit".
Proof.
  intros H. apply existsb_exists in H as (name & Hin & Heq).
  apply String.eqb_eq in Heq. subst name. cbn in Hin.
  repeat (destruct Hin as [Hin|Hin]; [symmetry in Hin; tauto|]). contradiction.
Qed.

(** The symbol is looked up after it was validated: the two agree. *)
Lemma validated_lookup {A : Type} symbol stocks l w o (k : Stock.t -> L A) :
  (_ <<- engine (lift (validate_symbol str_repr symbol stocks)) ;;
   stock <<- engine (lift (dict_get stocks symbol)) ;;
   k stock) (Session.mk l w o)
  = match dict_get stocks symbol with
    | Ok stock => k stock (Session.mk l w o)
    | Raise _ =>
        (Failed (Engine (ValueError (invalid_symbol_msg str_repr symbol stocks))),
         Session.mk l w o)
    end.
Proof.
  unfold validate_symbol.
  pose proof (existsb_keys_dict_get stocks symbol) as Hkeys.
  destruct (existsb (String.eqb symbol) (dict_keys stocks)).
  - destruct (proj1 Hkeys eq_refl) as [stock Hget]. rewrite Hget. reflexivity.
  - destruct (dict_get stocks symbol) as [stock|e] eqn:Hget.
    + assert (false = true) by (apply Hkeys; eauto). discriminate.
    + reflexivity.
Qed.

Ltac run_turn :=
  repeat (progress
            (cbn -[Trade_init validate_symbol dict_get calc_volume_weighted_price
                   gbce calc_div_yield py_float];
             unfold lbind, lret, lraise, engine, lift, print, the_trades,
               append_trade, on_exit)).

Ltac lookup_cases stocks symbol :=
  let Hkeys := fresh "Hkeys" in
  let Hget := fresh "Hget" in
  let stock := fresh "stock" in
  pose proof (existsb_keys_dict_get stocks symbol) as Hkeys;
  unfold validate_symbol;
  destruct (existsb (String.eqb symbol) (dict_keys stocks));
  [ destruct (proj1 Hkeys eq_refl) as [stock Hget]; rewrite Hget
  | destruct (dict_get stocks symbol) eqn:Hget;
    [ assert (false = true) by (apply Hkeys; eauto); discriminate | ] ];
  clear Hkeys; run_turn; [ | reflexivity ].

(** A purchase or a sale: the symbol, the quantity and the price. *)
Lemma turn_trade stocks a args l w o :
  is_side a ->
  turn int_of_str float_of_str geometric_mean str_repr stocks (a :: args)
    (Session.mk l w o)
  = match args with
    | [] => (Failed IndexError, Session.mk l w o)
    | symbol :: rest =>
        match dict_get stocks symbol with
        | Raise _ =>
            (Failed (Engine (ValueError
                               (invalid_symbol_msg str_repr symbol stocks))),
             Session.mk l w o)
        | Ok stock =>
            match rest with
            | [qty; price] =>
                match fst (Trade_init int_of_str float_of_str (Some stock)
                             (Some (lower a)) (VStr qty) (VStr price) w) with
                | Ok trade =>
                    (Done Continue,
                     Session.mk (l ++ [trade]) (advance 1 w)
                       (o ++ [PResult (OTrade trade)]))
                | Raise e => (Failed (Engine e), Session.mk l (advance 1 w) o)
                end
            | _ => (Failed (Engine TypeError), Session.mk l w o)
            end
        end
    end.
Proof.
  intros Hside. unfold turn.
  pose proof (Trade_init_world int_of_str float_of_str) as Hworld.
  destruct Hside as [Ha|Ha]; rewrite Ha.
  all: destruct args as [|symbol rest]; [reflexivity|].
  all: run_turn; lookup_cases stocks symbol.
  all: destruct rest as [|qty [|price [|x rest]]]; try reflexivity.
  all: unfold buy, sell; run_turn.
  all: match goal with
       | |- context [Trade_init ?i ?f ?s ?d ?q ?p ?w] =>
           specialize (Hworld s d q p w);
           destruct (Trade_init i f s d q p w) as [[t|e] w1]
       end; cbn [fst snd] in *; subst; reflexivity.
Qed.

Lemma turn_dividend_yield stocks a args l w o :
  lower a = "dividend_yield" ->
  turn int_of_str float_of_str geometric_mean str_repr stocks (a :: args)
    (Session.mk l w o)
  = match args with
    | [] => (Failed IndexError, Session.mk l w o)
    | symbol :: rest =>
        match dict_get stocks symbol with
        | Raise _ =>
            (Failed (Engine (ValueError
                               (invalid_symbol_msg str_repr symbol stocks))),
             Session.mk l w o)
        | Ok stock =>
            match rest with
            | [] => (Failed IndexError, Session.mk l w o)
            | word :: _ =>
                match (price <- py_float float_of_str (VStr word) ;;
                       calc_div_yield stock (VFloat price)) with
                | Ok y =>
                    (Done Continue,
                     Session.mk l w (o ++ [PResult (OValue y)]))
                | Raise e => (Failed (Engine e), Session.mk l w o)
                end
            end
        end
    end.
Proof.
  intros Ha. unfold turn. rewrite Ha.
  destruct args as [|symbol rest]; [reflexivity|].
  run_turn; lookup_cases stocks symbol.
  destruct rest as [|word rest]; [reflexivity|]. run_turn.
  destruct (py_float float_of_str (VStr word)) as [p|e]; run_turn; [|reflexivity].
  destruct (calc_div_yield stock (VFloat p)); reflexivity.
Qed.

Lemma turn_volume_weighted_price stocks a args l w o :
  lower a = "volume_weighted_price" ->
  turn int_of_str float_of_str geometric_mean str_repr stocks (a :: args)
    (Session.mk l w o)
  = match args with
    | [] => (Failed IndexError, Session.mk l w o)
    | symbol :: _ =>
        match dict_get stocks symbol with
        | Raise _ =>
            (Failed (Engine (ValueError
                               (invalid_symbol_msg str_repr symbol stocks))),
             Session.mk l w o)
        | Ok stock =>
            match fst (calc_volume_weighted_price stock l w) with
            | Ok p =>
                (Done Continue,
                 Session.mk l (advance 1 w) (o ++ [PResult (OValue p)]))
            | Raise e => (Failed (Engine e), Session.mk l (advance 1 w) o)
            end
        end
    end.
Proof.
  intros Ha. unfold turn. rewrite Ha.
  destruct args as [|symbol rest]; [reflexivity|].
  run_turn; lookup_cases stocks symbol.
  pose proof (calc_volume_weighted_price_world stock l w) as Hw.
  destruct (calc_volume_weighted_price stock l w) as [[p|e] w1];
    cbn [fst snd] in *; subst; reflexivity.
Qed.

Lemma turn_gbce stocks a args l w o :
  lower a = "gbce" ->
  turn int_of_str float_of_str geometric_mean str_repr stocks (a :: args)
    (Session.mk l w o)
  = match gbce geometric_mean stocks l w with
    | (Ok index, w') =>
        (Done Continue, Session.mk l w' (o ++ [PResult (OValue index)]))
    | (Raise e, w') => (Failed (Engine e), Session.mk l w' o)
    end.
Proof.
  intros Ha. unfold turn. rewrite Ha. run_turn.
  destruct (gbce geometric_mean stocks l w) as [[index|e] w1]; reflexivity.
Qed.

Lemma turn_show stocks a args l w o :
  lower a = "show_trades" \/ lower a = "show_stocks" ->
  turn int_of_str float_of_str geometric_mean str_repr stocks (a :: args)
    (Session.mk l w o)
  = (Done Continue,
     Session.mk l w
       (o ++ listing (if (lower a =? "show_trades")%string
                      then map OTrade l
                      else map OStock (map snd stocks)))).
Proof.
  intros [Ha|Ha]; unfold turn; rewrite Ha; run_turn; unfold pretty_print, print.
  - destruct l as [|t l]; cbn; [|reflexivity].
    now rewrite app_nil_r.
  - destruct stocks as [|[k v] rest]; cbn; [|reflexivity].
    now rewrite app_nil_r.
Qed.

Lemma turn_help stocks a args l w o :
  lower a = "help" ->
  turn int_of_str float_of_str geometric_mean str_repr stocks (a :: args)
    (Session.mk l w o)
  = match args with
    | [] =>
        (Done Continue,
         Session.mk l w
           ((o ++ map PHelp action_names) ++ [PResult (OValue VNone)]))
    | _ => (Failed (Engine TypeError), Session.mk l w o)
    end.
Proof.
  intros Ha. unfold turn. rewrite Ha.
  destruct args; reflexivity.
Qed.

Lemma turn_ratio stocks a args l w o :
  lower a = "p_to_e_ratio" ->
  turn int_of_str float_of_str geometric_mean str_repr stocks (a :: args)
    (Session.mk l w o)
  = match args with
    | [] => (Done Continue, Session.mk l w (o ++ [PResult (OValue (VInt 0))]))
    | _ => (Failed (Engine TypeError), Session.mk l w o)
    end.
Proof.
  intros Ha. unfold turn. rewrite Ha.
  destruct args; reflexivity.
Qed.

Lemma turn_quit stocks a args l w o :
  lower a = "exit" \/ lower a = "quit" ->
  turn int_of_str float_of_str geometric_mean str_repr stocks (a :: args)
    (Session.mk l w o)
  = (Done Break, Session.mk l w o).
Proof.
  intros [Ha|Ha]; unfold turn; rewrite Ha; reflexivity.
Qed.

Lemma turn_unknown stocks a args l w o :
  existsb (String.eqb (lower a)) action_names = false ->
  turn int_of_str float_of_str geometric_mean str_repr stocks (a :: args)
    (Session.mk l w o)
  = (Done Continue, Session.mk l w (o ++ [PText invalid_action_msg])).
Proof.
  intros Ha. unfold turn. rewrite Ha. reflexivity.
Qed.

Lemma listing_nonempty (items : list obj) : listing items <> [].
Proof. destruct items; discriminate. Qed.

(** With words for the quantity and the price the constructor raises
    [ValueError] only. *)
Lemma Trade_init_words_ValueError stock indicator qty price w e :
  fst (Trade_init int_of_str float_of_str stock indicator (VStr qty) (VStr price) w)
  = Raise e ->
  exists msg, e = ValueError msg.
Proof.
  rewrite Trade_init_run. cbn [py_int py_float].
  destruct (int_of_str qty); cbn [rbind]; [|intros [= <-]; eauto].
  destruct (float_of_str price); cbn [rbind]; [|intros [= <-]; eauto].
  destruct stock; [|intros [= <-]; eauto].
  destruct indicator; [|intros [= <-]; eauto].
  destruct (_ || _)%bool; [intros [= <-]; eauto|].
  destruct (negb _); [intros [= <-]; eauto|discriminate].
Qed.

(** What a turn does to the session.  Either it leaves the ledger as it
    is: then it only adds lines to the output, none when it raises or
    breaks and at least one when it goes on, and a break leaves the clock
    too.  Or it is a purchase or a sale that returned, whose trade it
    prints and appends. *)
Lemma turn_effect stocks tokens l w o r s' :
  turn int_of_str float_of_str geometric_mean str_repr stocks tokens
    (Session.mk l w o) = (r, s') ->
  (Session.trades s' = l
   /\ (forall c, r <> Done (Crash c))
   /\ exists shown,
        Session.output s' = (o ++ shown)%list
        /\ (forall x, r = Failed x -> shown = [])
        /\ (r = Done Break ->
            shown = [] /\ Session.world s' = w
            /\ exists a args, tokens = a :: args
                               /\ (lower a = "exit" \/ lower a = "quit"))
        /\ (r = Done Continue -> shown <> []))
  \/ (exists a symbol qty price stock trade,
        tokens = [a; symbol; qty; price]
        /\ is_side a
        /\ dict_get stocks symbol = Ok stock
        /\ fst (Trade_init int_of_str float_of_str (Some stock) (Some (lower a))
                  (VStr qty) (VStr price) w) = Ok trade
        /\ r = Done Continue
        /\ s' = Session.mk (l ++ [trade]) (advance 1 w)
                  (o ++ [PResult (OTrade trade)])).
Proof.
  assert (Hquiet : forall x,
            (r, s') = (Failed x, Session.mk l w o) ->
            Session.trades s' = l
            /\ (forall c, r <> Done (Crash c))
            /\ exists shown,
                 Session.output s' = (o ++ shown)%list
                 /\ (forall y, r = Failed y -> shown = [])
                 /\ (r = Done Break ->
                     shown = [] /\ Session.world s' = w
                     /\ exists a args, tokens = a :: args
                          /\ (lower a = "exit" \/ lower a = "quit"))
                 /\ (r = Done Continue -> shown <> [])).
  { intros x [= -> ->]. split; [reflexivity|]. split; [discriminate|].
    exists []. cbn [Session.output]. rewrite app_nil_r.
    repeat split; try discriminate; auto. }
  assert (Hfail : forall x w1,
            (r, s') = (Failed x, Session.mk l w1 o) ->
            Session.trades s' = l
            /\ (forall c, r <> Done (Crash c))
            /\ exists shown,
                 Session.output s' = (o ++ shown)%list
                 /\ (forall y, r = Failed y -> shown = [])
                 /\ (r = Done Break ->
                     shown = [] /\ Session.world s' = w
                     /\ exists a args, tokens = a :: args
                          /\ (lower a = "exit" \/ lower a = "quit"))
                 /\ (r = Done Continue -> shown <> [])).
  { intros x w1 [= -> ->]. split; [reflexivity|]. split; [discriminate|].
    exists []. cbn [Session.output]. rewrite app_nil_r.
    repeat split; try discriminate; auto. }
  assert (Hshow : forall w1 shown,
            shown <> [] ->
            (r, s') = (Done Continue, Session.mk l w1 (o ++ shown)) ->
            Session.trades s' = l
            /\ (forall c, r <> Done (Crash c))
            /\ exists shown,
                 Session.output s' = (o ++ shown)%list
                 /\ (forall y, r = Failed y -> shown = [])
                 /\ (r = Done Break ->
                     shown = [] /\ Session.world s' = w
                     /\ exists a args, tokens = a :: args
                          /\ (lower a = "exit" \/ lower a = "quit"))
                 /\ (r = Done Continue -> shown <> [])).
  { intros w1 shown Hne [= -> ->]. split; [reflexivity|]. split; [discriminate|].
    exists shown. cbn [Session.output].
    repeat split; try discriminate; auto. }
  intros H. symmetry in H.
  destruct tokens as [|a args].
  { left. exact (Hquiet _ H). }
  destruct (existsb (String.eqb (lower a)) action_names) eqn:Hin.
  2:{ rewrite (turn_unknown stocks a args l w o Hin) in H.
      left. apply (Hshow w [PText invalid_action_msg]); [discriminate|exact H]. }
  apply action_names_cases in Hin.
  destruct Hin as [Ha|[Ha|[Ha|[Ha|[Ha|[Ha|[Ha|[Ha|[Ha|[Ha|Ha]]]]]]]]]].
  - rewrite (turn_help stocks a args l w o Ha) in H. left.
    destruct args; [|exact (Hquiet _ H)].
    rewrite <- app_assoc in H.
    apply (Hshow w _) in H; [exact H|]. discriminate.
  - rewrite (turn_dividend_yield stocks a args l w o Ha) in H. left.
    destruct args as [|symbol rest]; [exact (Hquiet _ H)|].
    destruct (dict_get stocks symbol) as [stock|e]; [|exact (Hquiet _ H)].
    destruct rest as [|word rest]; [exact (Hquiet _ H)|].
    destruct (rbind _ _) as [y|e]; [|exact (Hquiet _ H)].
    apply (Hshow w _) in H; [exact H|]. discriminate.
  - rewrite (turn_ratio stocks a args l w o Ha) in H. left.
    destruct args; [|exact (Hquiet _ H)].
    apply (Hshow w _) in H; [exact H|]. discriminate.
  - rewrite (turn_trade stocks a args l w o (or_introl Ha)) in H.
    destruct args as [|symbol rest]; [left; exact (Hquiet _ H)|].
    destruct (dict_get stocks symbol) as [stock|e] eqn:Hget;
      [|left; exact (Hquiet _ H)].
    destruct rest as [|qty [|price [|x rest]]]; try (left; exact (Hquiet _ H)).
    destruct (fst (Trade_init _ _ _ _ _ _ _)) as [trade|e] eqn:Ht;
      [|left; exact (Hfail _ _ H)].
    right. injection H as -> ->.
    exists a, symbol, qty, price, stock, trade.
    repeat split; auto. now left.
  - rewrite (turn_trade stocks a args l w o (or_intror Ha)) in H.
    destruct args as [|symbol rest]; [left; exact (Hquiet _ H)|].
    destruct (dict_get stocks symbol) as [stock|e] eqn:Hget;
      [|left; exact (Hquiet _ H)].
    destruct rest as [|qty [|price [|x rest]]]; try (left; exact (Hquiet _ H)).
    destruct (fst (Trade_init _ _ _ _ _ _ _)) as [trade|e] eqn:Ht;
      [|left; exact (Hfail _ _ H)].
    right. injection H as -> ->.
    exists a, symbol, qty, price, stock, trade.
    repeat split; auto. now right.
  - rewrite (turn_volume_weighted_price stocks a args l w o Ha) in H. left.
    destruct args as [|symbol rest]; [exact (Hquiet _ H)|].
    destruct (dict_get stocks symbol) as [stock|e]; [|exact (Hquiet _ H)].
    destruct (fst _) as [p|e]; [|exact (Hfail _ _ H)].
    apply (Hshow _ _) in H; [exact H|]. discriminate.
  - rewrite (turn_gbce stocks a args l w o Ha) in H. left.
    destruct (gbce geometric_mean stocks l w) as [[index|e] w1];
      [|exact (Hfail _ _ H)].
    apply (Hshow _ _) in H; [exact H|]. discriminate.
  - rewrite (turn_show stocks a args l w o (or_introl Ha)) in H. left.
    apply (Hshow _ _) in H; [exact H|]. apply listing_nonempty.
  - rewrite (turn_show stocks a args l w o (or_intror Ha)) in H. left.
    apply (Hshow _ _) in H; [exact H|]. apply listing_nonempty.
  - rewrite (turn_quit stocks a args l w o (or_introl Ha)) in H. left.
    injection H as -> ->. split; [reflexivity|]. split; [discriminate|].
    exists []. cbn [Session.output Session.world]. rewrite app_nil_r.
    repeat split; try discriminate; eauto.
  - rewrite (turn_quit stocks a args l w o (or_intror Ha)) in H. left.
    injection H as -> ->. split; [reflexivity|]. split; [discriminate|].
    exists []. cbn [Session.output Session.world]. rewrite app_nil_r.
    repeat split; try discriminate; eauto.
Qed.

(** The handler applied to what a turn raised. *)
Lemma step_of_turn stocks tokens s :
  step int_of_str float_of_str geometric_mean str_repr stocks tokens s
  = match turn int_of_str float_of_str geometric_mean str_repr stocks tokens s with
    | (Done out, s') => (out, s')
    | (Failed (Engine (ValueError msg)), s') =>
        (Continue,
         Session.mk (Session.trades s') (Session.world s')
           (Session.output s' ++ [PError (ValueError msg)]))
    | (Failed (Engine TypeError), s') =>
        (Continue,
         Session.mk (Session.trades s') (Session.world s')
           (Session.output s' ++ [PError TypeError]))
    | (Failed r, s') => (Crash r, s')
    end.
Proof.
  unfold step.
  destruct (turn _ _ _ _ _ _ _) as [[out|[[msg| | | | |]|]] s']; reflexivity.
Qed.

Lemma constructed_of_Trade_init stock indicator qty price w trade :
  fst (Trade_init int_of_str float_of_str stock indicator qty price w) = Ok trade ->
  constructed int_of_str float_of_str trade.
Proof.
  intros H. exists stock, indicator, qty, price, w,
    (snd (Trade_init int_of_str float_of_str stock indicator qty price w)).
  rewrite <- H. apply surjective_pairing.
Qed.

(** ** The ledger *)

(** What a turn does to the ledger. *)
Lemma step_ledger_effect stocks tokens l w o out s' :
  step int_of_str float_of_str geometric_mean str_repr stocks tokens
    (Session.mk l w o) = (out, s') ->
  Session.trades s' = l
  \/ exists a symbol qty price stock trade,
       tokens = [a; symbol; qty; price] /\ is_side a
       /\ dict_get stocks symbol = Ok stock
       /\ Trade.stock trade = stock
       /\ Trade.is_buy trade = (lower a =? "buy")%string
       /\ constructed int_of_str float_of_str trade
       /\ out = Continue
       /\ Session.trades s' = (l ++ [trade])%list.
Proof.
  rewrite step_of_turn.
  destruct (turn _ _ _ _ _ _ _) as [r s1] eqn:Hturn.
  destruct (turn_effect _ _ _ _ _ _ _ Hturn)
    as [(Hl & _)|(a & symbol & qty & price & stock & trade
                  & -> & Hside & Hget & Ht & -> & ->)].
  - destruct r as [out1|[[msg| | | | |]|]]; intros [= <- <-]; left; exact Hl.
  - intros [= <- <-]. right.
    exists a, symbol, qty, price, stock, trade.
    destruct (Trade_init_inv _ _ _ _ _ _ _ _ Ht)
      as (s0 & ind & q & p & [= <-] & [= <-] & _ & _ & _ & _ & _ & ->).
    rewrite lower_idem.
    repeat split; auto.
    eapply constructed_of_Trade_init; rewrite Ht, lower_idem; reflexivity.
Qed.

(** X12: a turn never rewrites the ledger: it keeps it, or appends one
    trade to it.  It appends only for the action 'buy' or 'sell' (in any
    case of the letters) given a symbol of the registry, a quantity and a
    price, and then goes on; the trade is one that [Trade.__init__]
    returned, for the security registered under the symbol. *)
Theorem step_appends_at_most_one stocks tokens l w o out s' :
  step int_of_str float_of_str geometric_mean str_repr stocks tokens
    (Session.mk l w o) = (out, s') ->
  Session.trades s' = l
  \/ exists a symbol qty price stock trade,
       tokens = [a; symbol; qty; price] /\ is_side a
       /\ dict_get stocks symbol = Ok stock
       /\ Trade.stock trade = stock
       /\ Trade.is_buy trade = (lower a =? "buy")%string
       /\ constructed int_of_str float_of_str trade
       /\ out = Continue
       /\ Session.trades s' = (l ++ [trade])%list.
Proof.
  apply step_ledger_effect.
Qed.

(** X13: over a whole script the ledger only grows at its end: the final
    ledger is the initial one followed by at most one trade per line, each
    returned by [Trade.__init__] (so with a quantity greater than 0 and a
    price that is not [<= 0]) for a security of the registry. *)
Theorem run_ledger_append_only stocks script :
  forall s out s',
    run int_of_str float_of_str geometric_mean str_repr stocks script s
    = (out, s') ->
    exists added,
      Session.trades s' = (Session.trades s ++ added)%list
      /\ (List.length added <= List.length script)%nat
      /\ Forall (constructed int_of_str float_of_str) added
      /\ Forall (registered stocks) added
      /\ Forall (fun t => 0 < Trade.qty t
                          /\ PrimFloat.leb (Trade.price t) 0%float = false)
           added.
Proof.
  induction script as [|tokens rest IH]; intros s out s'; cbn [run].
  - intros [= <- <-]. exists []. rewrite app_nil_r.
    repeat split; auto.
  - destruct (step _ _ _ _ stocks tokens s) as [out1 s1] eqn:Hstep.
    destruct s as [l w o].
    pose proof (step_ledger_effect _ _ _ _ _ _ _ Hstep) as Hone.
    assert (Hadd : exists added1,
               Session.trades s1 = (l ++ added1)%list
               /\ (List.length added1 <= 1)%nat
               /\ Forall (constructed int_of_str float_of_str) added1
               /\ Forall (registered stocks) added1
               /\ Forall (fun t => 0 < Trade.qty t
                                   /\ PrimFloat.leb (Trade.price t) 0%float = false)
                    added1).
    { destruct Hone as [Hl|(a & symbol & qty & price & stock & trade & _ & _
                            & Hget & Hstock & _ & Hc & _ & Hl)].
      - exists []. rewrite app_nil_r. repeat split; auto.
      - exists [trade]. repeat split; auto.
        + constructor; [|constructor]. exists symbol. now rewrite Hstock.
        + constructor; [|constructor].
          destruct Hc as (st & ind & q & p & w0 & w1 & Hc).
          apply (f_equal fst) in Hc. cbn [fst] in Hc.
          destruct (Trade_init_inv _ _ _ _ _ _ _ _ Hc)
            as (s0 & i0 & q0 & p0 & _ & _ & _ & _ & Hq & Hp & _ & ->).
          split; assumption. }
    destruct Hadd as (added1 & Hl1 & Hlen1 & Hc1 & Hr1 & Hv1).
    cbn [Session.trades].
    destruct out1.
    + intros Hrun. destruct (IH _ _ _ Hrun) as (added & Hl & Hlen & Hc & Hr & Hv).
      exists (added1 ++ added)%list. rewrite Hl, Hl1, app_assoc.
      split; [reflexivity|]. split; [rewrite length_app; cbn [List.length]; lia|].
      repeat split; apply Forall_app; auto.
    + intros [= <- <-]. exists added1.
      split; [exact Hl1|]. split; [cbn [List.length]; lia|]. auto.
    + intros [= <- <-]. exists added1.
      split; [exact Hl1|]. split; [cbn [List.length]; lia|]. auto.
Qed.

(** ** What a turn prints and how it ends *)

(** X14: a turn only adds lines to what was printed.  A turn that goes on
    adds at least one line; a turn that breaks the loop or ends the
    program on an exception adds none and leaves the ledger as it is.  The
    exception that ends the program is never a [ValueError] nor a
    [TypeError]: those are printed by the handler. *)
Theorem step_output stocks tokens l w o out s' :
  step int_of_str float_of_str geometric_mean str_repr stocks tokens
    (Session.mk l w o) = (out, s') ->
  exists shown,
    Session.output s' = (o ++ shown)%list
    /\ (out = Continue -> shown <> [])
    /\ (out = Break -> shown = [] /\ Session.trades s' = l
                       /\ Session.world s' = w)
    /\ (forall r, out = Crash r ->
                  shown = [] /\ Session.trades s' = l
                  /\ (forall msg, r <> Engine (ValueError msg))
                  /\ r <> Engine TypeError).
Proof.
  rewrite step_of_turn.
  destruct (turn _ _ _ _ _ _ _) as [r s1] eqn:Hturn.
  destruct (turn_effect _ _ _ _ _ _ _ Hturn)
    as [(Hl & Hnc & shown & Ho & Hfail & Hbreak & Hcont)
       |(a & symbol & qty & price & stock & trade
         & -> & Hside & Hget & Ht & -> & ->)].
  - destruct r as [out1|x].
    + intros [= <- <-]. exists shown. split; [exact Ho|].
      split; [intros ->; now apply Hcont|].
      split; [intros ->; destruct (Hbreak eq_refl) as (? & ? & _); auto|].
      intros r ->. now elim (Hnc r).
    + pose proof (Hfail x eq_refl) as ->. rewrite app_nil_r in Ho.
      destruct x as [[msg| | | | |]|]; intros [= <- <-].
      1,2: eexists; cbn [Session.output]; rewrite Ho;
        (split; [reflexivity|]); (split; [discriminate|]);
        split; [discriminate|intros r; discriminate].
      all: exists []; rewrite app_nil_r; split; [exact Ho|];
        (split; [discriminate|]); (split; [discriminate|]);
        intros r [= <-]; repeat split; auto; discriminate.
  - intros [= <- <-]. exists [PResult (OTrade trade)].
    split; [reflexivity|]. split; [discriminate|].
    split; [discriminate|intros r; discriminate].
Qed.

(** X15: the loop breaks exactly on a line whose first word is 'exit' or
    'quit' in some case of the letters, whatever follows the word, and the
    session is then as it was. *)
Theorem step_breaks_iff stocks tokens l w o s' :
  step int_of_str float_of_str geometric_mean str_repr stocks tokens
    (Session.mk l w o) = (Break, s')
  <-> (exists a args,
         tokens = a :: args /\ (lower a = "exit" \/ lower a = "quit"))
      /\ s' = Session.mk l w o.
Proof.
  split.
  - rewrite step_of_turn.
    destruct (turn _ _ _ _ _ _ _) as [r s1] eqn:Hturn.
    destruct r as [out1|[[msg| | | | |]|]]; try discriminate.
    intros [= -> ->].
    destruct (turn_effect _ _ _ _ _ _ _ Hturn)
      as [(Hl & _ & shown & Ho & _ & Hbreak & _)
         |(? & ? & ? & ? & ? & ? & _ & _ & _ & _ & [=] & _)].
    destruct (Hbreak eq_refl) as (-> & Hw & a & args & -> & Ha).
    split; [eauto|].
    rewrite (turn_quit stocks a args l w o Ha) in Hturn.
    now injection Hturn as <-.
  - intros [(a & args & -> & Ha) ->].
    rewrite step_of_turn, (turn_quit stocks a args l w o Ha). reflexivity.
Qed.

(** ** Recording a trade *)

(** X16: the line [buy SYMBOL QTY PRICE] (or [sell]).  With a symbol that
    is not a key of the registry the turn prints the invalid-symbol error
    without reading the clock; otherwise it builds the trade for the
    registered security and, if the constructor returns, prints the trade
    and appends it to the ledger, and if the constructor raises, prints
    the error and keeps the ledger.  In every case the loop goes on; a
    purchase or a sale ends the program only when the line has no symbol,
    with [IndexError]. *)
Theorem step_trade stocks a l w o :
  is_side a ->
  (forall symbol qty price,
     step int_of_str float_of_str geometric_mean str_repr stocks
       [a; symbol; qty; price] (Session.mk l w o)
     = match dict_get stocks symbol with
       | Raise _ =>
           (Continue,
            Session.mk l w
              (o ++ [PError (ValueError
                               (invalid_symbol_msg str_repr symbol stocks))]))
       | Ok stock =>
           match fst (Trade_init int_of_str float_of_str (Some stock)
                        (Some (lower a)) (VStr qty) (VStr price) w) with
           | Ok trade =>
               (Continue,
                Session.mk (l ++ [trade]) (advance 1 w)
                  (o ++ [PResult (OTrade trade)]))
           | Raise e => (Continue, Session.mk l (advance 1 w) (o ++ [PError e]))
           end
       end)
  /\ (forall args r s',
       step int_of_str float_of_str geometric_mean str_repr stocks
         (a :: args) (Session.mk l w o) = (Crash r, s') ->
       args = [] /\ r = IndexError /\ s' = Session.mk l w o).
Proof.
  intros Hside. split.
  - intros symbol qty price.
    rewrite step_of_turn, (turn_trade stocks a _ l w o Hside).
    destruct (dict_get stocks symbol) as [stock|e]; [|reflexivity].
    destruct (fst (Trade_init _ _ _ _ _ _ _)) as [trade|e] eqn:Ht; [reflexivity|].
    destruct (Trade_init_words_ValueError _ _ _ _ _ _ Ht) as [msg ->].
    reflexivity.
  - intros args r s'.
    rewrite step_of_turn, (turn_trade stocks a _ l w o Hside).
    destruct args as [|symbol rest]; [now intros [= <- <-]|].
    destruct (dict_get stocks symbol) as [stock|e]; [|discriminate].
    destruct rest as [|qty [|price [|x rest]]]; try discriminate.
    destruct (fst (Trade_init _ _ _ _ _ _ _)) as [trade|e] eqn:Ht; [discriminate|].
    destruct (Trade_init_words_ValueError _ _ _ _ _ _ Ht) as [msg ->].
    discriminate.
Qed.

(** X17: for the actions that take a symbol ('buy', 'sell',
    'dividend_yield', 'volume_weighted_price'), a symbol that is not a key
    of the registry is reported at once: the turn prints the
    invalid-symbol error, reads no clock, keeps the ledger and goes on,
    whatever follows the symbol on the line. *)
Theorem step_unknown_symbol stocks a symbol rest l w o :
  is_side a \/ lower a = "dividend_yield" \/ lower a = "volume_weighted_price" ->
  (forall stock, dict_get stocks symbol <> Ok stock) ->
  step int_of_str float_of_str geometric_mean str_repr stocks
    (a :: symbol :: rest) (Session.mk l w o)
  = (Continue,
     Session.mk l w
       (o ++ [PError (ValueError (invalid_symbol_msg str_repr symbol stocks))])).
Proof.
  intros Ha Hnone. rewrite step_of_turn.
  destruct Ha as [Ha|[Ha|Ha]].
  - rewrite (turn_trade stocks a _ l w o Ha).
    destruct (dict_get stocks symbol) as [stock|e]; [now elim (Hnone stock)|].
    reflexivity.
  - rewrite (turn_dividend_yield stocks a _ l w o Ha).
    destruct (dict_get stocks symbol) as [stock|e]; [now elim (Hnone stock)|].
    reflexivity.
  - rewrite (turn_volume_weighted_price stocks a _ l w o Ha).
    destruct (dict_get stocks symbol) as [stock|e]; [now elim (Hnone stock)|].
    reflexivity.
Qed.

(** X18: a line whose action takes a symbol and gives none ends the
    program with [IndexError], which the handler does not catch; so does
    'dividend_yield' with a registered symbol and no price.  Nothing is
    printed and the session is as it was. *)
Theorem step_missing_argument stocks a l w o :
  (is_side a \/ lower a = "dividend_yield"
   \/ lower a = "volume_weighted_price" ->
   step int_of_str float_of_str geometric_mean str_repr stocks [a]
     (Session.mk l w o)
   = (Crash IndexError, Session.mk l w o))
  /\ (forall symbol stock,
       lower a = "dividend_yield" -> dict_get stocks symbol = Ok stock ->
       step int_of_str float_of_str geometric_mean str_repr stocks [a; symbol]
         (Session.mk l w o)
       = (Crash IndexError, Session.mk l w o)).
Proof.
  split.
  - intros [Ha|[Ha|Ha]]; rewrite step_of_turn.
    + now rewrite (turn_trade stocks a _ l w o Ha).
    + now rewrite (turn_dividend_yield stocks a _ l w o Ha).
    + now rewrite (turn_volume_weighted_price stocks a _ l w o Ha).
  - intros symbol stock Ha Hget.
    rewrite step_of_turn, (turn_dividend_yield stocks a _ l w o Ha), Hget.
    reflexivity.
Qed.

(** X19: the line [dividend_yield SYMBOL PRICE] with a registered symbol
    and a price that reads as a float less than or equal to 0 ends the
    program: the [NameError] raised in place of the intended error is not
    caught by the handler.  Nothing is printed. *)
Theorem step_dividend_yield_nonpositive stocks a symbol word rest stock p l w o :
  lower a = "dividend_yield" ->
  dict_get stocks symbol = Ok stock ->
  py_float float_of_str (VStr word) = Ok p ->
  PrimFloat.leb p 0%float = true ->
  step int_of_str float_of_str geometric_mean str_repr stocks
    (a :: symbol :: word :: rest) (Session.mk l w o)
  = (Crash (Engine (NameError "valueError")), Session.mk l w o).
Proof.
  intros Ha Hget Hp Hle.
  rewrite step_of_turn, (turn_dividend_yield stocks a _ l w o Ha), Hget, Hp.
  cbn [rbind]. unfold calc_div_yield. cbn [py_le_zero]. rewrite Hle. reflexivity.
Qed.

(** X20: 'show_trades' prints the trades of the ledger in the order they
    were appended, one line each, and 'show_stocks' the securities of the
    registry in its order; with nothing to show each prints the single
    line 'No items to show!'.  Words after the action are ignored, and the
    ledger and the clock are left as they are. *)
Theorem step_show stocks a args l w o :
  (lower a = "show_trades" ->
   step int_of_str float_of_str geometric_mean str_repr stocks (a :: args)
     (Session.mk l w o)
   = (Continue,
      Session.mk l w
        (o ++ match l with
              | [] => [PText "No items to show!"]
              | _ => map (fun t => PItem (OTrade t)) l
              end)))
  /\ (lower a = "show_stocks" ->
      step int_of_str float_of_str geometric_mean str_repr stocks (a :: args)
        (Session.mk l w o)
      = (Continue,
         Session.mk l w
           (o ++ match stocks with
                 | [] => [PText "No items to show!"]
                 | _ => map (fun entry => PItem (OStock (snd entry))) stocks
                 end))).
Proof.
  split; intros Ha; rewrite step_of_turn.
  - rewrite (turn_show stocks a args l w o (or_introl Ha)), Ha.
    cbn [String.eqb Ascii.eqb Bool.eqb]. unfold listing.
    destruct l as [|t l]; [reflexivity|].
    cbn [map]. now rewrite map_map.
  - rewrite (turn_show stocks a args l w o (or_intror Ha)), Ha.
    cbn [String.eqb Ascii.eqb Bool.eqb]. unfold listing.
    destruct stocks as [|[k v] rest]; [reflexivity|].
    cbn [map snd]. now rewrite !map_map.
Qed.

(** ** A trade and the price that follows *)

(** X21: a purchase or a sale that is recorded, followed by
    'volume_weighted_price' for the same symbol less than five minutes
    later by the clock: on a ledger of trades that the constructor
    returned, the two lines print the trade and then a float, the ledger
    holding the new trade at its end; the no-trading-activity error cannot
    appear.  The only other outcome is the end of the program on
    [OverflowError] or [ZeroDivisionError] from the arithmetic. *)
Theorem trade_then_volume_weighted_price
    stocks a b symbol qty price rest stock trade l w o :
  is_side a -> lower b = "volume_weighted_price" ->
  Forall (constructed int_of_str float_of_str) l ->
  dict_get stocks symbol = Ok stock ->
  fst (Trade_init int_of_str float_of_str (Some stock) (Some (lower a))
         (VStr qty) (VStr price) w) = Ok trade ->
  current_instant (advance 1 w) - timedelta_minutes 5 < current_instant w ->
  (exists x,
     run int_of_str float_of_str geometric_mean str_repr stocks
       [[a; symbol; qty; price]; b :: symbol :: rest] (Session.mk l w o)
     = (Continue,
        Session.mk (l ++ [trade]) (advance 2 w)
          (o ++ [PResult (OTrade trade); PResult (OValue (VFloat x))])))
  \/ (exists e,
        (e = OverflowError \/ e = ZeroDivisionError)
        /\ run int_of_str float_of_str geometric_mean str_repr stocks
             [[a; symbol; qty; price]; b :: symbol :: rest] (Session.mk l w o)
           = (Crash (Engine e),
              Session.mk (l ++ [trade]) (advance 2 w)
                (o ++ [PResult (OTrade trade)]))).
Proof.
  intros Hside Hb Hall Hget Htrade Hclock.
  cbn [run].
  rewrite step_of_turn, (turn_trade stocks a _ l w o Hside), Hget, Htrade.
  rewrite step_of_turn,
    (turn_volume_weighted_price stocks b _ (l ++ [trade]) (advance 1 w) _ Hb), Hget.
  assert (Hall' : Forall (constructed int_of_str float_of_str) (l ++ [trade])).
  { apply Forall_app. split; [exact Hall|]. constructor; [|constructor].
    eapply constructed_of_Trade_init. exact Htrade. }
  assert (Hwin : window (current_instant (advance 1 w)) stock (l ++ [trade]) <> []).
  { rewrite window_app.
    destruct (Trade_init_inv _ _ _ _ _ _ _ _ Htrade)
      as (s0 & ind & q & p & [= <-] & _ & _ & _ & _ & _ & _ & ->).
    unfold window at 2. cbn [filter]. unfold in_window.
    cbn [Trade.instant Trade.stock].
    rewrite (proj2 (Z.ltb_lt _ _) Hclock), String.eqb_refl. cbn [andb].
    intros H. apply app_eq_nil in H. destruct H as [_ H]. discriminate. }
  destruct (calc_volume_weighted_price_active int_of_str float_of_str
              stock (l ++ [trade]) (advance 1 w) Hall' Hwin)
    as [[x ->]|[-> | ->]].
  - left. exists x. rewrite <- app_assoc. reflexivity.
  - right. exists OverflowError. split; [now left|reflexivity].
  - right. exists ZeroDivisionError. split; [now right|reflexivity].
Qed.

End LoopProperties.

(** * Concrete runs of the further properties *)

(** The catalog of the program is what the constructor returns for its
    five entries. *)
Lemma catalog_from_constructor (int_of_str : string -> option Z) :
  Stock_init int_of_str (Some "TEA") (Some "common") (VInt 0) VNone (VInt 100)
  = Ok TEA
  /\ Stock_init int_of_str (Some "POP") (Some "common") (VInt 8) VNone (VInt 100)
     = Ok POP
  /\ Stock_init int_of_str (Some "ALE") (Some "common") (VInt 23) VNone (VInt 60)
     = Ok ALE
  /\ Stock_init int_of_str (Some "GIN") (Some "preferred") (VInt 8) (VInt 2)
       (VInt 100) = Ok GIN
  /\ Stock_init int_of_str (Some "JOE") (Some "common") (VInt 13) VNone (VInt 250)
     = Ok JOE
  /\ map (fun s => (Stock.symbol s, s)) [TEA; POP; ALE; GIN; JOE] = catalog.
Proof. repeat split. Qed.

Lemma catalog_NoDup : NoDup (dict_keys catalog).
Proof. repeat constructor; cbn; intuition discriminate. Defined.

Lemma Trade_init_accepts_nan_and_infinity_witness :
  py_int decimal_int_of_str (VStr "5") = Ok 5
  /\ 0 < 5
  /\ (lower "Buy" = "buy" \/ lower "Buy" = "sell")
  /\ py_float decimal_float_of_str (VFloat nan) = Ok nan
  /\ exists trade,
       fst (Trade_init decimal_int_of_str decimal_float_of_str (Some POP)
              (Some "Buy") (VStr "5") (VFloat nan) (ticking_world noon))
       = Ok trade
       /\ Trade.price trade = nan /\ Trade.qty trade = 5.
Proof.
  split; [reflexivity|]. split; [lia|]. split; [left; reflexivity|].
  split; [reflexivity|].
  apply (Trade_init_accepts_nan_and_infinity decimal_int_of_str
           decimal_float_of_str POP "Buy" (VStr "5") (VFloat nan) 5 nan
           (ticking_world noon) eq_refl).
  - lia.
  - left. reflexivity.
  - reflexivity.
  - left. reflexivity.
Defined.

Lemma sell_mirrors_buy_witness :
  fst (buy decimal_int_of_str decimal_float_of_str (Some POP)
         (VStr "5") (VStr "10") (ticking_world noon))
  = Ok (Trade.mk noon POP true 5 10%float)
  /\ fst (sell decimal_int_of_str decimal_float_of_str (Some POP)
            (VStr "5") (VStr "10") (ticking_world noon))
     = Ok (Trade.mk noon POP false 5 10%float).
Proof.
  split; [reflexivity|].
  exact (eq_trans
           (proj1 (sell_mirrors_buy decimal_int_of_str decimal_float_of_str
                     (Some POP) (VStr "5") (VStr "10") (ticking_world noon)))
           eq_refl).
Defined.

Lemma Stock_init_round_trip_witness :
  Stock_init decimal_int_of_str (Some "GIN") (Some "Preferred")
    (VInt 8) (VStr "2") (VStr "100") = Ok GIN
  /\ Stock_init decimal_int_of_str (Some "GIN") (Some "preferred")
       (VInt 8) (VInt 2) (VInt 100) = Ok GIN.
Proof.
  split; [reflexivity|].
  exact (Stock_init_round_trip decimal_int_of_str (Some "GIN") (Some "Preferred")
           (VInt 8) (VStr "2") (VStr "100") GIN eq_refl).
Defined.

Lemma calc_div_yield_common_total_witness :
  lower (Stock.typ POP) = "common"
  /\ positive (VFloat 2%float)
  /\ int_to_float (Stock.last_div POP) = Ok 8%float
  /\ calc_div_yield POP (VFloat 2%float)
     = Ok (VFloat (PrimFloat.div 8%float 2%float)).
Proof.
  split; [reflexivity|]. split; [reflexivity|]. split; [reflexivity|].
  exact (proj2 (calc_div_yield_common_total POP (VFloat 2%float) eq_refl eq_refl)
           2%float 8%float eq_refl eq_refl).
Defined.

Lemma calc_volume_weighted_price_only_window_witness :
  in_window (current_instant (ticking_world noon)) POP pop_trade_old = false
  /\ fst (calc_volume_weighted_price POP
            ([pop_trade_1] ++ pop_trade_old :: [pop_trade_2]) (ticking_world noon))
     = fst (calc_volume_weighted_price POP ([pop_trade_1] ++ [pop_trade_2])
              (ticking_world noon)).
Proof.
  split; [reflexivity|].
  exact (proj1 (proj2 (calc_volume_weighted_price_only_window POP
                         (ticking_world noon)))
           [pop_trade_1] pop_trade_old [pop_trade_2] eq_refl).
Defined.

Lemma metrics_return_floats_witness :
  calc_div_yield GIN (VInt 50) = Ok (VFloat 0x1.47ae147ae147bp-5%float)
  /\ exists x, VFloat 0x1.47ae147ae147bp-5%float = VFloat x.
Proof.
  split; [reflexivity|].
  exact (proj1 metrics_return_floats GIN (VInt 50) _ eq_refl).
Defined.

(** The sale priced NaN and the first purchase of POP are trades that the
    constructor returns. *)
Lemma nan_trades_constructed :
  Forall (constructed decimal_int_of_str decimal_float_of_str)
    [pop_trade_nan; pop_trade_1].
Proof.
  repeat constructor.
  - exists (Some POP), (Some "sell"), (VInt 1), (VFloat nan),
      (stopped_world (noon - timedelta_minutes 1)),
      (advance 1 (stopped_world (noon - timedelta_minutes 1))).
    reflexivity.
  - exists (Some POP), (Some "buy"), (VStr "100"), (VStr "10"),
      (stopped_world (noon - timedelta_minutes 1)),
      (advance 1 (stopped_world (noon - timedelta_minutes 1))).
    reflexivity.
Defined.

Lemma calc_volume_weighted_price_with_activity_witness :
  Forall (constructed decimal_int_of_str decimal_float_of_str)
    [pop_trade_nan; pop_trade_1]
  /\ window (current_instant (ticking_world noon)) POP
       [pop_trade_nan; pop_trade_1] <> []
  /\ (exists t, In t (window (current_instant (ticking_world noon)) POP
                       [pop_trade_nan; pop_trade_1])
               /\ Trade.price t = nan)
  /\ (forall p,
        fst (calc_volume_weighted_price POP [pop_trade_nan; pop_trade_1]
               (ticking_world noon)) = Ok p ->
        p = VFloat nan).
Proof.
  assert (Hwin : window (current_instant (ticking_world noon)) POP
                   [pop_trade_nan; pop_trade_1] <> []) by discriminate.
  assert (Hnan : exists t,
             In t (window (current_instant (ticking_world noon)) POP
                     [pop_trade_nan; pop_trade_1])
             /\ Trade.price t = nan).
  { exists pop_trade_nan. split; [left; reflexivity|reflexivity]. }
  split; [exact nan_trades_constructed|]. split; [exact Hwin|].
  split; [exact Hnan|].
  exact (proj2 (calc_volume_weighted_price_with_activity decimal_int_of_str
                  decimal_float_of_str POP [pop_trade_nan; pop_trade_1]
                  (ticking_world noon) nan_trades_constructed Hwin) Hnan).
Defined.

Lemma gbce_no_activity_witness :
  NoDup (dict_keys catalog)
  /\ fst (gbce geometric_mean_no_data catalog [pop_trade_old] (ticking_world noon))
     = Raise (NoTradingActivity None).
Proof.
  split; [exact catalog_NoDup|].
  apply (gbce_no_activity geometric_mean_no_data catalog [pop_trade_old]
           (ticking_world noon) catalog_NoDup).
  intros j s Hin. unfold window. cbn [filter]. unfold in_window.
  cbn [Trade.instant pop_trade_old].
  replace (_ <? _) with false; [reflexivity|].
  symmetry. apply Z.ltb_ge.
  unfold current_instant, advance, ticking_world, timedelta_minutes, noon.
  cbn [readings cursor]. lia.
Defined.

Lemma validate_symbol_lookup_witness :
  dict_get catalog "POP" = Ok POP
  /\ validate_symbol plain_repr "POP" catalog = Ok tt
  /\ validate_symbol plain_repr "pop" catalog
     = Raise (ValueError
                "Invalid stock symbol(pop). Choose from: ['TEA', 'POP', 'ALE', 'GIN', 'JOE']").
Proof.
  split; [reflexivity|]. split; [|reflexivity].
  exact (proj2 (proj1 (validate_symbol_lookup plain_repr "POP" catalog))
           (ex_intro _ POP eq_refl)).
Defined.

Lemma step_appends_at_most_one_witness :
  step decimal_int_of_str decimal_float_of_str geometric_mean_no_data plain_repr
    catalog ["BUY"; "POP"; "100"; "10"] (Session.mk [] (ticking_world noon) [])
  = (Continue,
     Session.mk [Trade.mk noon POP true 100 10%float]
       (advance 1 (ticking_world noon))
       [PResult (OTrade (Trade.mk noon POP true 100 10%float))])
  /\ exists a symbol qty price stock trade,
       ["BUY"; "POP"; "100"; "10"] = [a; symbol; qty; price] /\ is_side a
       /\ dict_get catalog symbol = Ok stock
       /\ Trade.stock trade = stock
       /\ Trade.is_buy trade = (lower a =? "buy")%string
       /\ constructed decimal_int_of_str decimal_float_of_str trade
       /\ Continue = Continue
       /\ [Trade.mk noon POP true 100 10%float] = ([] ++ [trade])%list.
Proof.
  assert (Hstep :
    step decimal_int_of_str decimal_float_of_str geometric_mean_no_data plain_repr
      catalog ["BUY"; "POP"; "100"; "10"] (Session.mk [] (ticking_world noon) [])
    = (Continue,
       Session.mk [Trade.mk noon POP true 100 10%float]
         (advance 1 (ticking_world noon))
         [PResult (OTrade (Trade.mk noon POP true 100 10%float))]))
    by reflexivity.
  split; [exact Hstep|].
  destruct (step_appends_at_most_one decimal_int_of_str decimal_float_of_str
              geometric_mean_no_data plain_repr catalog _ _ _ _ _ _ Hstep)
    as [Hsame|Happended].
  - discriminate Hsame.
  - exact Happended.
Defined.

Lemma run_ledger_append_only_witness :
  run decimal_int_of_str decimal_float_of_str geometric_mean_no_data plain_repr
    catalog
    [["buy"; "POP"; "100"; "10"]; ["sell"; "POP"; "0"; "10"]; ["show_trades"];
     ["SELL"; "GIN"; "50"; "20"]; ["quit"]; ["buy"; "TEA"; "1"; "1"]]
    (start (ticking_world noon))
  = (Break,
     Session.mk
       [Trade.mk noon POP true 100 10%float;
        Trade.mk (noon + 2) GIN false 50 20%float]
       (advance 3 (ticking_world noon))
       [PResult (OTrade (Trade.mk noon POP true 100 10%float));
        PError (ValueError trade_positive_msg);
        PItem (OTrade (Trade.mk noon POP true 100 10%float));
        PResult (OTrade (Trade.mk (noon + 2) GIN false 50 20%float))])
  /\ exists added,
       [Trade.mk noon POP true 100 10%float;
        Trade.mk (noon + 2) GIN false 50 20%float]
       = (Session.trades (start (ticking_world noon)) ++ added)%list
       /\ (List.length added <= 6)%nat
       /\ Forall (constructed decimal_int_of_str decimal_float_of_str) added
       /\ Forall (registered catalog) added
       /\ Forall (fun t => 0 < Trade.qty t
                           /\ PrimFloat.leb (Trade.price t) 0%float = false) added.
Proof.
  assert (Hrun :
    run decimal_int_of_str decimal_float_of_str geometric_mean_no_data plain_repr
      catalog
      [["buy"; "POP"; "100"; "10"]; ["sell"; "POP"; "0"; "10"]; ["show_trades"];
       ["SELL"; "GIN"; "50"; "20"]; ["quit"]; ["buy"; "TEA"; "1"; "1"]]
      (start (ticking_world noon))
    = (Break,
       Session.mk
         [Trade.mk noon POP true 100 10%float;
          Trade.mk (noon + 2) GIN false 50 20%float]
         (advance 3 (ticking_world noon))
         [PResult (OTrade (Trade.mk noon POP true 100 10%float));
          PError (ValueError trade_positive_msg);
          PItem (OTrade (Trade.mk noon POP true 100 10%float));
          PResult (OTrade (Trade.mk (noon + 2) GIN false 50 20%float))]))
    by reflexivity.
  split; [exact Hrun|].
  exact (run_ledger_append_only decimal_int_of_str decimal_float_of_str
           geometric_mean_no_data plain_repr catalog _ _ _ _ Hrun).
Defined.

Lemma step_output_witness :
  step decimal_int_of_str decimal_float_of_str geometric_mean_no_data plain_repr
    catalog ["gbce"] (start (ticking_world noon))
  = (Continue,
     Session.mk [] (advance 5 (ticking_world noon))
       [PError (NoTradingActivity None)])
  /\ exists shown,
       [PError (NoTradingActivity None)] = ([] ++ shown)%list
       /\ (Continue = Continue -> shown <> []).
Proof.
  assert (Hstep :
    step decimal_int_of_str decimal_float_of_str geometric_mean_no_data plain_repr
      catalog ["gbce"] (start (ticking_world noon))
    = (Continue,
       Session.mk [] (advance 5 (ticking_world noon))
         [PError (NoTradingActivity None)])) by reflexivity.
  split; [exact Hstep|].
  destruct (step_output decimal_int_of_str decimal_float_of_str
              geometric_mean_no_data plain_repr catalog _ _ _ _ _ _ Hstep)
    as (shown & Hshown & Hcont & _).
  exists shown. split; [exact Hshown|exact Hcont].
Defined.

Lemma step_trade_witness :
  is_side "Sell"
  /\ step decimal_int_of_str decimal_float_of_str geometric_mean_no_data plain_repr
       catalog ["Sell"; "ALE"; "7"; "abc"] (start (ticking_world noon))
     = (Continue,
        Session.mk [] (advance 1 (ticking_world noon))
          [PError (ValueError "could not convert string to float")]).
Proof.
  assert (Hside : is_side "Sell") by (right; reflexivity).
  split; [exact Hside|].
  exact (eq_trans
           (proj1 (step_trade decimal_int_of_str decimal_float_of_str
                     geometric_mean_no_data plain_repr catalog "Sell" []
                     (ticking_world noon) [] Hside) "ALE" "7" "abc")
           eq_refl).
Defined.

Lemma step_unknown_symbol_witness :
  (is_side "buy" \/ lower "buy" = "dividend_yield"
   \/ lower "buy" = "volume_weighted_price")
  /\ (forall stock, dict_get catalog "tea" <> Ok stock)
  /\ step decimal_int_of_str decimal_float_of_str geometric_mean_no_data plain_repr
       catalog ["buy"; "tea"; "1"; "1"] (start (ticking_world noon))
     = (Continue,
        Session.mk [] (ticking_world noon)
          [PError (ValueError (invalid_symbol_msg plain_repr "tea" catalog))]).
Proof.
  assert (Ha : is_side "buy" \/ lower "buy" = "dividend_yield"
               \/ lower "buy" = "volume_weighted_price")
    by (left; left; reflexivity).
  assert (Hnone : forall stock, dict_get catalog "tea" <> Ok stock)
    by (intros stock; discriminate).
  split; [exact Ha|]. split; [exact Hnone|].
  exact (step_unknown_symbol decimal_int_of_str decimal_float_of_str
           geometric_mean_no_data plain_repr catalog "buy" "tea" ["1"; "1"] []
           (ticking_world noon) [] Ha Hnone).
Defined.

Lemma step_missing_argument_witness :
  (is_side "buy" \/ lower "buy" = "dividend_yield"
   \/ lower "buy" = "volume_weighted_price")
  /\ step decimal_int_of_str decimal_float_of_str geometric_mean_no_data plain_repr
       catalog ["buy"] (start (ticking_world noon))
     = (Crash IndexError, start (ticking_world noon))
  /\ step decimal_int_of_str decimal_float_of_str geometric_mean_no_data plain_repr
       catalog ["dividend_yield"; "POP"] (start (ticking_world noon))
     = (Crash IndexError, start (ticking_world noon)).
Proof.
  assert (Ha : is_side "buy" \/ lower "buy" = "dividend_yield"
               \/ lower "buy" = "volume_weighted_price")
    by (left; left; reflexivity).
  split; [exact Ha|]. split.
  - exact (proj1 (step_missing_argument decimal_int_of_str decimal_float_of_str
                    geometric_mean_no_data plain_repr catalog "buy" []
                    (ticking_world noon) []) Ha).
  - exact (proj2 (step_missing_argument decimal_int_of_str decimal_float_of_str
                    geometric_mean_no_data plain_repr catalog "dividend_yield" []
                    (ticking_world noon) []) "POP" POP eq_refl eq_refl).
Defined.

Lemma step_dividend_yield_nonpositive_witness :
  lower "dividend_yield" = "dividend_yield"
  /\ dict_get catalog "POP" = Ok POP
  /\ py_float decimal_float_of_str (VStr "0") = Ok 0%float
  /\ PrimFloat.leb 0%float 0%float = true
  /\ step decimal_int_of_str decimal_float_of_str geometric_mean_no_data plain_repr
       catalog ["dividend_yield"; "POP"; "0"] (start (ticking_world noon))
     = (Crash (Engine (NameError "valueError")), start (ticking_world noon)).
Proof.
  repeat (split; [reflexivity|]).
  exact (step_dividend_yield_nonpositive decimal_int_of_str decimal_float_of_str
           geometric_mean_no_data plain_repr catalog "dividend_yield" "POP" "0" []
           POP 0%float [] (ticking_world noon) [] eq_refl eq_refl eq_refl eq_refl).
Defined.

Lemma step_show_witness :
  lower "Show_Trades" = "show_trades"
  /\ step decimal_int_of_str decimal_float_of_str geometric_mean_no_data plain_repr
       catalog ["Show_Trades"; "all"]
       (Session.mk [pop_trade_1; pop_trade_2] (ticking_world noon) [])
     = (Continue,
        Session.mk [pop_trade_1; pop_trade_2] (ticking_world noon)
          [PItem (OTrade pop_trade_1); PItem (OTrade pop_trade_2)]).
Proof.
  split; [reflexivity|].
  exact (proj1 (step_show decimal_int_of_str decimal_float_of_str
                  geometric_mean_no_data plain_repr catalog "Show_Trades" ["all"]
                  [pop_trade_1; pop_trade_2] (ticking_world noon) []) eq_refl).
Defined.

Lemma trade_then_volume_weighted_price_witness :
  is_side "buy"
  /\ lower "volume_weighted_price" = "volume_weighted_price"
  /\ Forall (constructed decimal_int_of_str decimal_float_of_str)
       [pop_trade_1; pop_trade_2]
  /\ dict_get catalog "POP" = Ok POP
  /\ fst (Trade_init decimal_int_of_str decimal_float_of_str (Some POP)
            (Some (lower "buy")) (VStr "150") (VStr "30") (ticking_world noon))
     = Ok (Trade.mk noon POP true 150 30%float)
  /\ current_instant (advance 1 (ticking_world noon)) - timedelta_minutes 5
     < current_instant (ticking_world noon)
  /\ ((exists x,
         run decimal_int_of_str decimal_float_of_str geometric_mean_no_data
           plain_repr catalog
           [["buy"; "POP"; "150"; "30"]; ["volume_weighted_price"; "POP"]]
           (Session.mk [pop_trade_1; pop_trade_2] (ticking_world noon) [])
         = (Continue,
            Session.mk
              ([pop_trade_1; pop_trade_2] ++ [Trade.mk noon POP true 150 30%float])
              (advance 2 (ticking_world noon))
              ([] ++ [PResult (OTrade (Trade.mk noon POP true 150 30%float));
                      PResult (OValue (VFloat x))])))
      \/ (exists e,
            (e = OverflowError \/ e = ZeroDivisionError)
            /\ run decimal_int_of_str decimal_float_of_str geometric_mean_no_data
                 plain_repr catalog
                 [["buy"; "POP"; "150"; "30"]; ["volume_weighted_price"; "POP"]]
                 (Session.mk [pop_trade_1; pop_trade_2] (ticking_world noon) [])
               = (Crash (Engine e),
                  Session.mk
                    ([pop_trade_1; pop_trade_2]
                     ++ [Trade.mk noon POP true 150 30%float])
                    (advance 2 (ticking_world noon))
                    ([] ++ [PResult (OTrade (Trade.mk noon POP true 150 30%float))])))).
Proof.
  assert (Hside : is_side "buy") by (left; reflexivity).
  assert (Hclock : current_instant (advance 1 (ticking_world noon))
                   - timedelta_minutes 5
                   < current_instant (ticking_world noon)) by reflexivity.
  split; [exact Hside|]. split; [reflexivity|].
  split; [exact pop_trades_constructed|]. split; [reflexivity|].
  split; [reflexivity|]. split; [exact Hclock|].
  exact (trade_then_volume_weighted_price decimal_int_of_str decimal_float_of_str
           geometric_mean_no_data plain_repr catalog "buy" "volume_weighted_price"
           "POP" "150" "30" [] POP (Trade.mk noon POP true 150 30%float)
           [pop_trade_1; pop_trade_2] (ticking_world noon) []
           Hside eq_refl pop_trades_constructed eq_refl eq_refl Hclock).
Defined.
